(** * Discovery pipeline: vendor polling, standardization, CRM import, job status

    A shallow embedding of [discovery_module.py], [discovery_tasks.py] and
    the discovery client in [app/services/insightiq.py].

    Python values are dynamically typed, so the embedding carries a small
    universe of JSON-like values and an explicit exception channel.  Strings
    are modelled as ASCII strings. *)

From Stdlib Require Import ZArith QArith Ascii String.
From stdpp Require Import base strings gmap list.

Open Scope Z_scope.

(** ** Python values *)

Module Py.

#[warnings="-register-all"]
Inductive value : Type :=
  | VNone
  | VBool (b : bool)
  | VInt (n : Z)
  | VFloat (q : Q)
  | VStr (s : string)
  | VList (l : list value)
  | VDict (d : gmap string value).

(** Exceptions: the class and the text that [str(e)] gives. *)
Inductive exn_class : Type :=
  | AttributeError
  | TypeError
  | KeyError
  | ValueError
  | RequestException
  | Exception.

Record exn : Type := Exn { exn_cls : exn_class; exn_text : string }.

Inductive result (A : Type) : Type :=
  | Ok (a : A)
  | Raise (e : exn).
Arguments Ok {A} a.
Arguments Raise {A} e.

#[global] Instance result_ret : MRet result := @Ok.
#[global] Instance result_bind : MBind result := λ A B k m,
  match m with
  | Ok a => k a
  | Raise e => Raise e
  end.

Definition type_name (v : value) : string :=
  match v with
  | VNone => "NoneType"
  | VBool _ => "bool"
  | VInt _ => "int"
  | VFloat _ => "float"
  | VStr _ => "str"
  | VList _ => "list"
  | VDict _ => "dict"
  end.

Definition no_attribute {A} (v : value) (attr : string) : result A :=
  Raise (Exn AttributeError
    ("'" +:+ type_name v +:+ "' object has no attribute '" +:+ attr +:+ "'")).

Definition type_error {A} (msg : string) : result A :=
  Raise (Exn TypeError msg).

(** [bool(v)] *)
Definition truthy (v : value) : bool :=
  match v with
  | VNone => false
  | VBool b => b
  | VInt n => negb (n =? 0)
  | VFloat q => negb (Qeq_bool q 0)
  | VStr s => negb (String.eqb s "")
  | VList l => match l with [] => false | _ => true end
  | VDict d => negb (size d =? 0)%nat
  end.

(** [a or b] *)
Definition py_or (a b : value) : value := if truthy a then a else b.

(** [v.get(k, dflt)]: only dicts have [get]. *)
Definition get (v : value) (k : string) (dflt : value) : result value :=
  match v with
  | VDict d => Ok (default dflt (d !! k))
  | _ => no_attribute v "get"
  end.

(** [v == s] against a string literal *)
Definition eq_str (v : value) (s : string) : bool :=
  match v with
  | VStr t => String.eqb t s
  | _ => false
  end.

(** Iteration ([for x in v], [list.extend(v)]): lists give their elements,
    dicts their keys, strings their characters; nothing else is iterable. *)
Fixpoint chars (s : string) : list value :=
  match s with
  | EmptyString => []
  | String a s' => VStr (String a EmptyString) :: chars s'
  end.

Definition iter (v : value) : result (list value) :=
  match v with
  | VList l => Ok l
  | VDict d => Ok (VStr <$> (map_to_list d).*1)
  | VStr s => Ok (chars s)
  | _ => type_error ("'" +:+ type_name v +:+ "' object is not iterable")
  end.

(** [len(v)] *)
Definition len (v : value) : result nat :=
  match v with
  | VList l => Ok (length l)
  | VDict d => Ok (size d)
  | VStr s => Ok (String.length s)
  | _ => type_error ("object of type '" +:+ type_name v +:+ "' has no len()")
  end.

(** *** String methods (ASCII) *)

Definition is_space (a : ascii) : bool :=
  let n := nat_of_ascii a in
  ((9 <=? n) && (n <=? 13) || (28 <=? n) && (n <=? 32))%nat.

Definition lower_ascii (a : ascii) : ascii :=
  let n := nat_of_ascii a in
  if ((65 <=? n) && (n <=? 90))%nat then ascii_of_nat (n + 32) else a.

Definition upper_ascii (a : ascii) : ascii :=
  let n := nat_of_ascii a in
  if ((97 <=? n) && (n <=? 122))%nat then ascii_of_nat (n - 32) else a.

Fixpoint str_lower (s : string) : string :=
  match s with
  | EmptyString => EmptyString
  | String a s' => String (lower_ascii a) (str_lower s')
  end.

Definition str_capitalize (s : string) : string :=
  match s with
  | EmptyString => EmptyString
  | String a s' => String (upper_ascii a) (str_lower s')
  end.

Fixpoint lstrip (s : string) : string :=
  match s with
  | EmptyString => EmptyString
  | String a s' => if is_space a then lstrip s' else s
  end.

Definition str_strip (s : string) : string :=
  String.rev (lstrip (String.rev (lstrip s))).

(** [s.split()] with no separator: maximal runs of non-space characters. *)
Fixpoint split_go (cur : option string) (s : string) : list string :=
  match s with
  | EmptyString => option_list (String.rev <$> cur)
  | String a s' =>
      if is_space a
      then option_list (String.rev <$> cur) ++ split_go None s'
      else split_go (Some (String a (default EmptyString cur))) s'
  end.

Definition str_split (s : string) : list string := split_go None s.

Fixpoint str_join (sep : string) (l : list string) : string :=
  match l with
  | [] => EmptyString
  | [x] => x
  | x :: l' => x +:+ sep +:+ str_join sep l'
  end.

Definition str_endswith (s suffix : string) : bool :=
  let n := String.length s in
  let m := String.length suffix in
  (m <=? n)%nat && String.eqb (String.substring (n - m) m s) suffix.

(** [s[:n]] on a string *)
Definition str_take (n : nat) (s : string) : string := String.substring 0 n s.

(** [v.strip()], [v.lower()]: only strings have them. *)
Definition strip (v : value) : result string :=
  match v with
  | VStr s => Ok (str_strip s)
  | _ => no_attribute v "strip"
  end.

Definition lower (v : value) : result string :=
  match v with
  | VStr s => Ok (str_lower s)
  | _ => no_attribute v "lower"
  end.

Definition split (v : value) : result (list string) :=
  match v with
  | VStr s => Ok (str_split s)
  | _ => no_attribute v "split"
  end.

End Py.

Import Py.

(** ** The outside world

    Everything the code reaches through a global handle or the network is
    made explicit: the environment variables, the clock, Redis, the vendor
    endpoints and the CRM endpoint.  The responses of the collaborators are
    scripted in [env]; what the code did to them is recorded in [trace]. *)

Module Eff.

(** The outcome of one [requests] call: a transport failure
    ([requests.exceptions.RequestException] with its text), or a response
    with its status code, its text, and what [response.json()] gives. *)
Inductive http : Type :=
  | Transport (text : string)
  | Response (status_code : Z) (text : string) (json : result value).

Inductive event : Type :=
  | RedisSetex (key : string) (ttl : Z) (payload : value)
  | VendorPost (parameters : gmap string value)
  | VendorGet (job_id : value) (offset limit : Z)
  | Sleep (seconds : Q)
  | HubspotPost (inputs : list value).

Record env : Type := Env {
  environ : gmap string string;      (* os.getenv *)
  now_iso : nat → string;            (* n-th datetime.now().isoformat() *)
  vendor_post : nat → http;          (* n-th POST to the search-export endpoint *)
  hubspot_post : nat → http;         (* n-th POST to contacts/batch/create *)
  format : value → string;           (* str(v) of a value that is not a string *)
}.

(** [polls] is the script of the result endpoint still to be played: for
    each iteration of the polling loop, the elapsed time measured at its
    top and the outcome of its GET. *)
Record world : Type := World {
  redis : gmap string (Z * value);   (* key ↦ (ttl, decoded JSON payload) *)
  trace : list event;                (* oldest first *)
  clock_reads : nat;
  vendor_posts : nat;
  hubspot_posts : nat;
  polls : list (Q * http);
}.

(** A computation returns a value, raises, or is still running when the
    poll script ends ([None]). *)
Definition M (A : Type) : Type := world → world * option (result A).

#[global] Instance M_ret : MRet M := λ A a w, (w, Some (Ok a)).
#[global] Instance M_bind : MBind M := λ A B k m w,
  match m w with
  | (w', Some (Ok a)) => k a w'
  | (w', Some (Raise e)) => (w', Some (Raise e))
  | (w', None) => (w', None)
  end.

Definition raise {A} (e : exn) : M A := λ w, (w, Some (Raise e)).

(** A pure computation that may raise. *)
Definition lift {A} (r : result A) : M A := λ w, (w, Some r).

(** [try: body / except Exception as e: handler(e)] *)
Definition try_except {A} (body : M A) (handler : exn → M A) : M A := λ w,
  match body w with
  | (w', Some (Raise e)) => handler e w'
  | r => r
  end.

Definition emit (ev : event) : M unit := λ w,
  (World (redis w) (trace w ++ [ev]) (clock_reads w) (vendor_posts w)
         (hubspot_posts w) (polls w), Some (Ok ())).

Definition getenv (E : env) (name : string) : option string := environ E !! name.

(** [datetime.now().isoformat()] *)
Definition datetime_now (E : env) : M string := λ w,
  (World (redis w) (trace w) (S (clock_reads w)) (vendor_posts w)
         (hubspot_posts w) (polls w), Some (Ok (now_iso E (clock_reads w)))).

(** [r.get(key)] *)
Definition redis_get (key : string) : M (option value) := λ w,
  (w, Some (Ok (snd <$> redis w !! key))).

(** [r.setex(key, ttl, json.dumps(payload))] *)
Definition redis_setex (key : string) (ttl : Z) (payload : value) : M unit := λ w,
  (World (<[key := (ttl, payload)]> (redis w))
         (trace w ++ [RedisSetex key ttl payload]) (clock_reads w)
         (vendor_posts w) (hubspot_posts w) (polls w), Some (Ok ())).

Definition time_sleep (seconds : Q) : M unit := emit (Sleep seconds).

(** [str(v)] as an f-string interpolates it *)
Definition py_str (E : env) (v : value) : string :=
  match v with
  | VStr s => s
  | _ => format E v
  end.

(** [except requests.exceptions.RequestException as e: raise Exception(f"<prefix>{e}")] *)
Definition wrap_request_exception {A} (prefix : string) (r : result A) : result A :=
  match r with
  | Raise (Exn RequestException text) => Raise (Exn Exception (prefix +:+ text))
  | _ => r
  end.

End Eff.

Import Eff.

(** ** Job status store ([discovery_tasks.py]) *)

Module JobStore.

Definition job_key (job_id : string) : string := "discovery_job:" +:+ job_id.

(** The three assignments on [job_data]:
    [job_data['status'] = status], [job_data['updated_at'] = ...],
    [job_data.update(kwargs)]. *)
Definition merge_fields (job_data : gmap string value) (status now : string)
    (kwargs : gmap string value) : gmap string value :=
  kwargs ∪ <["updated_at" := VStr now]> (<["status" := VStr status]> job_data).

(** Redis holds the record as JSON text; the text and the value it decodes
    to are identified, so [json.loads] and [json.dumps] disappear.  A stored
    text is never empty, so [if job_data:] tests presence.  Item assignment
    needs the decoded value to be a dict. *)
Definition update_discovery_job_status (E : env) (job_id status : string)
    (kwargs : gmap string value) : M unit :=
  let job_key := job_key job_id in
  job_data ← redis_get job_key;
  let job_data :=
    match job_data with
    | Some v => v
    | None => VDict {[ "job_id" := VStr job_id ]}
    end in
  match job_data with
  | VDict d =>
      now ← datetime_now E;
      redis_setex job_key 86400 (VDict (merge_fields d status now kwargs))
  | VList _ =>
      raise (Exn TypeError "list indices must be integers or slices, not str")
  | v =>
      raise (Exn TypeError
        ("'" +:+ type_name v +:+ "' object does not support item assignment"))
  end.

End JobStore.

(** ** Vendor search client ([discovery_module.py]) *)

Module DiscoveryModule.

Definition USA : value := VStr "cb8c4bd2-7661-4761-971a-c27322e2f209".

(** Fixed parameters applied to all searches. *)
Definition FIXED_PARAMS : gmap string value :=
  list_to_map [
    ("specific_contact_details",
      VList [VDict (list_to_map [("type", VStr "EMAIL"); ("preference", VStr "MUST_HAVE")])]);
    ("creator_language", VDict {[ "code" := VStr "en" ]});
    ("creator_locations", VList [USA]);
    ("audience_locations",
      VList [VDict (list_to_map [("location_id", USA);
                                 ("percentage_value", VInt 30);
                                 ("operator", VStr "GT")])]);
    ("sort_by", VDict (list_to_map [("field", VStr "FOLLOWER_COUNT");
                                    ("order", VStr "DESCENDING")]));
    ("audience_credibility_category",
      VList [VStr "EXCELLENT"; VStr "HIGH"; VStr "NORMAL"])
  ].

Definition PLATFORM_CONFIGS : gmap string (gmap string value) :=
  list_to_map [
    ("instagram", list_to_map [("work_platform_id", VStr "9bb8913b-ddd9-430b-a66a-d74d846e6c66");
                               ("network_name", VStr "instagram")]);
    ("youtube", list_to_map [("work_platform_id", VStr "14d9ddf5-51c6-415e-bde6-f8ed36ad7054");
                             ("network_name", VStr "youtube")]);
    ("tiktok", list_to_map [("work_platform_id", VStr "de55aeec-0dc8-4119-bf90-16b3d1f0c987");
                            ("network_name", VStr "tiktok")]);
    ("facebook", list_to_map [("work_platform_id", VStr "ad2fec62-2987-40a0-89fb-23485972598c");
                              ("network_name", VStr "facebook")])
  ].

(** *** [_extract_contact_details] *)

(** One turn of the loop over the details: the type is lower-cased, and an
    entry with a non-empty type and a truthy value is stored under the type
    itself (email, phone) or under [<type>_url].  The store is a plain
    assignment. *)
Definition extract_step (contacts : gmap string value) (detail : value)
    : result (gmap string value) :=
  t ← get detail "type" (VStr "");
  contact_type ← lower t;
  contact_value ← get detail "value" (VStr "");
  if negb (String.eqb contact_type "") && truthy contact_value then
    if String.eqb contact_type "email" || String.eqb contact_type "phone"
    then Ok (<[contact_type := contact_value]> contacts)
    else Ok (<[contact_type +:+ "_url" := contact_value]> contacts)
  else Ok contacts.

Fixpoint extract_loop (contacts : gmap string value) (details : list value)
    : result (gmap string value) :=
  match details with
  | [] => Ok contacts
  | detail :: rest =>
      contacts' ← extract_step contacts detail;
      extract_loop contacts' rest
  end.

Definition _extract_contact_details (contact_details : value)
    : result (gmap string value) :=
  details ← iter contact_details;
  extract_loop ∅ details.

(** *** [_standardize_results] *)

(** [d.get(k)] on a dict built by the code itself *)
Definition dget (d : gmap string value) (k : string) : value :=
  default VNone (d !! k).

(** The body of the [try] for one raw profile. *)
Definition standardize_profile (platform : string) (profile : value)
    : result (gmap string value) :=
  cd ← get profile "contact_details" (VList []);
  contact_details ← _extract_contact_details cd;
  full_name ← get profile "full_name" (VStr "");
  name_parts ← (if truthy full_name
                then parts ← split full_name;
                     Ok (str_capitalize <$> (parts : list string))
                else Ok [] : result (list string));
  let first_name := match name_parts with n :: _ => n | [] => "" end in
  let last_name := if (1 <? length name_parts)%nat
                   then str_join " " (tail name_parts) else "" in
  location ← get profile "creator_location" (VDict ∅);
  url ← get profile "url" (VStr "");
  handle ← get profile "platform_username" (VStr "");
  followers ← get profile "follower_count" VNone;
  subscribers ← get profile "subscriber_count" (VInt 0);
  engagement_rate ← get profile "engagement_rate" (VInt 0);
  bio ← get profile "bio" (VStr "");
  city ← get location "city" VNone;
  state ← get location "state" VNone;
  country ← get location "country" VNone;
  credibility ← get profile "audience_credibility_category" VNone;
  last_post ← get profile "last_post_timestamp" VNone;
  let fields : gmap string value := list_to_map [
    ("profile_url", url);
    ("handle", handle);
    ("display_name", full_name);
    ("first_name", VStr first_name);
    ("last_name", VStr last_name);
    ("platform", VStr platform);
    ("follower_count", py_or followers subscribers);
    ("engagement_rate", engagement_rate);
    ("bio", bio);
    ("email", dget contact_details "email");
    ("phone", dget contact_details "phone");
    ("city", city);
    ("state", state);
    ("country", country);
    ("audience_credibility", credibility);
    ("last_post_date", last_post)
  ] in
  (* **{k: v for k, v in contact_details.items() if k not in ('email', 'phone')} *)
  let extra := filter (λ kv, kv.1 ≠ "email" ∧ kv.1 ≠ "phone") contact_details in
  Ok (extra ∪ fields).

(** The loop: a profile whose processing raises is logged and skipped. *)
Fixpoint _standardize_results (raw_results : list value) (platform : string)
    : list (gmap string value) :=
  match raw_results with
  | [] => []
  | profile :: rest =>
      match standardize_profile platform profile with
      | Ok standardized_profile =>
          standardized_profile :: _standardize_results rest platform
      | Raise _ => _standardize_results rest platform
      end
  end.

(** *** [_start_job] *)

(** [requests.post(url, headers, json=parameters, timeout=30)] *)
Definition post_search_export (E : env) (parameters : gmap string value) : M http := λ w,
  (World (redis w) (trace w ++ [VendorPost parameters]) (clock_reads w)
         (S (vendor_posts w)) (hubspot_posts w) (polls w),
   Some (Ok (vendor_post E (vendor_posts w)))).

(** What the body of the [try] makes of the response. *)
Definition start_job_response (response : http) : result value :=
  match response with
  | Transport text => Raise (Exn RequestException text)
  | Response status_code text json =>
      if negb (status_code =? 200) then
        Raise (Exn Exception ("Failed to start job: " +:+ text))
      else
        body ← json;
        job_id ← get body "id" VNone;
        if negb (truthy job_id)
        then Raise (Exn Exception "No job ID returned from API")
        else Ok job_id
  end.

Definition _start_job (E : env) (parameters : gmap string value) : M value :=
  response ← post_search_export E parameters;
  lift (wrap_request_exception "Failed to connect to InsightIQ API: "
          (start_job_response response)).

(** *** [_fetch_results] *)

Definition limit : Z := 100.
Definition max_wait_time : Q := 600.

(** [offset + limit >= total_results] *)
Definition int_ge (n : Z) (v : value) : result bool :=
  match v with
  | VInt t => Ok (t <=? n)
  | VBool b => Ok ((if b then 1 else 0) <=? n)
  | VFloat q => Ok (Qle_bool q (inject_Z n))
  | _ => type_error ("'>=' not supported between instances of 'int' and '"
                     +:+ type_name v +:+ "'")
  end.

(** How one iteration of the [while True] leaves the loop body. *)
Inductive poll_ctl : Type :=
  | StillProcessing                          (* sleep 60 and [continue] *)
  | NextPage (all_results : list value)      (* [offset += limit] *)
  | Finished (all_results : list value).     (* [break] *)

(** The body of the [try] of one iteration, after the GET. *)
Definition poll_response (E : env) (offset : Z) (all_results : list value)
    (response : http) : result poll_ctl :=
  match response with
  | Transport text => Raise (Exn RequestException text)
  | Response status_code text json =>
      if negb (status_code =? 200) then
        Raise (Exn Exception ("Failed to fetch results: " +:+ text))
      else
        data ← json;
        status ← get data "status" VNone;
        if eq_str status "IN_PROGRESS" then Ok StillProcessing
        else if eq_str status "FAILED" then
          error_msg ← get data "error" (VStr "Unknown error");
          Raise (Exn Exception ("Job failed: " +:+ py_str E error_msg))
        else
          batch_results ← get data "data" (VList []);
          items ← iter batch_results;
          let all_results := all_results ++ items in
          metadata ← get data "metadata" (VDict ∅);
          total_results ← get metadata "total_results" (VInt 0);
          reached ← int_ge (offset + limit) total_results;
          if (reached : bool) then Ok (Finished all_results)
          else
            n ← len batch_results;
            if (n =? 0)%nat then Ok (Finished all_results)
            else Ok (NextPage all_results)
  end.

Definition set_polls (rest : list (Q * http)) (w : world) : world :=
  World (redis w) (trace w) (clock_reads w) (vendor_posts w) (hubspot_posts w) rest.

Definition log_event (ev : event) (w : world) : world :=
  World (redis w) (trace w ++ [ev]) (clock_reads w) (vendor_posts w)
        (hubspot_posts w) (polls w).

(** The [while True] loop, one script entry per iteration. *)
Fixpoint fetch_loop (E : env) (job_id : value) (script : list (Q * http))
    (offset : Z) (all_results : list value) (w : world)
    : world * option (result (list value)) :=
  match script with
  | [] => (set_polls [] w, None)
  | (elapsed, response) :: rest =>
      let w := set_polls rest w in
      if negb (Qle_bool elapsed max_wait_time) then
        (w, Some (Raise (Exn Exception "Job timeout after 600 seconds")))
      else
        let w := log_event (VendorGet job_id offset limit) w in
        match wrap_request_exception "Failed to fetch results: "
                (poll_response E offset all_results response) with
        | Raise e => (w, Some (Raise e))
        | Ok StillProcessing =>
            fetch_loop E job_id rest offset all_results (log_event (Sleep 60) w)
        | Ok (NextPage all_results) =>
            fetch_loop E job_id rest (offset + limit) all_results w
        | Ok (Finished all_results) => (w, Some (Ok all_results))
        end
  end.

Definition _fetch_results (E : env) (job_id : value) : M (list value) := λ w,
  fetch_loop E job_id (polls w) 0 [] w.

(** *** [search_profiles] *)

(** [min(v, 4000)]: the second argument wins only when it is smaller. *)
Definition min_4000 (v : value) : result value :=
  match v with
  | VInt n => Ok (if 4000 <? n then VInt 4000 else v)
  | VBool _ => Ok v
  | VFloat q => Ok (if Qle_bool q 4000 then v else VInt 4000)
  | _ => type_error ("'<' not supported between instances of 'int' and '"
                     +:+ type_name v +:+ "'")
  end.

(** [if k in user_filters and user_filters[k]: parameters[k] = user_filters[k]] *)
Definition copy_if_truthy (user_filters : value) (k : string)
    (parameters : gmap string value) : result (gmap string value) :=
  v ← get user_filters k VNone;
  Ok (if truthy v then <[k := v]> parameters else parameters).

(** The request parameters that [search_profiles] builds from the filters. *)
Definition build_parameters (platform : string) (user_filters : value)
    : result (gmap string value) :=
  match PLATFORM_CONFIGS !! platform with
  | None => Raise (Exn ValueError ("Unsupported platform: " +:+ platform))
  | Some platform_config =>
      let user_filters := py_or user_filters (VDict ∅) in
      let parameters := FIXED_PARAMS in
      let parameters :=
        <["work_platform_id" := dget platform_config "work_platform_id"]> parameters in
      m ← get user_filters "max_results" (VInt 500);
      max_results ← min_4000 m;
      let parameters := <["max_results" := max_results]> parameters in
      follower_filter ← get user_filters "follower_count" (VDict ∅);
      lo ← get follower_filter "min" (VInt 20000);
      hi ← get follower_filter "max" (VInt 900000);
      let range := VDict (list_to_map [("min", lo); ("max", hi)]) in
      let parameters :=
        if String.eqb platform "youtube"
        then <["subscriber_count" := range]> parameters
        else <["follower_count" := range]> parameters in
      lookalike_type ← get user_filters "lookalike_type" VNone;
      lu ← get user_filters "lookalike_username" (VStr "");
      lookalike_username ← strip lu;
      let parameters :=
        if eq_str lookalike_type "creator" && negb (String.eqb lookalike_username "")
        then <["creator_lookalikes" := VStr lookalike_username]> parameters
        else if eq_str lookalike_type "audience" && negb (String.eqb lookalike_username "")
        then <["audience_lookalikes" := VStr lookalike_username]> parameters
        else parameters in
      parameters ← copy_if_truthy user_filters "creator_interests" parameters;
      copy_if_truthy user_filters "hashtags" parameters
  end.

Definition search_profiles (E : env) (platform : string) (user_filters : value)
    : M (list (gmap string value)) :=
  parameters ← lift (build_parameters platform user_filters);
  job_id ← _start_job E parameters;
  raw_results ← _fetch_results E job_id;
  mret (_standardize_results raw_results platform).

End DiscoveryModule.

(** ** The discovery client of the web application ([app/services/insightiq.py])

    A second copy of the client; it differs from [discovery_module.py] in
    the accepted submission codes, in how duplicates of a contact type are
    treated and in the shape of the standardized profile. *)

Module Insightiq.

Definition start_job_response (response : http) : result value :=
  match response with
  | Transport text => Raise (Exn RequestException text)
  | Response status_code text json =>
      if negb ((status_code =? 200) || (status_code =? 202)) then
        Raise (Exn Exception ("Failed to start job: " +:+ text))
      else
        body ← json;
        job_id ← get body "id" VNone;
        if negb (truthy job_id)
        then Raise (Exn Exception "No job ID returned from API")
        else Ok job_id
  end.

Definition _start_job (E : env) (parameters : gmap string value) : M value :=
  response ← DiscoveryModule.post_search_export E parameters;
  lift (wrap_request_exception "Failed to connect to InsightIQ API: "
          (start_job_response response)).

(** [if contact_type and contact_value and contact_type not in contacts] *)
Definition extract_step (contacts : gmap string value) (detail : value)
    : result (gmap string value) :=
  t ← get detail "type" (VStr "");
  contact_type ← lower t;
  contact_value ← get detail "value" (VStr "");
  if negb (String.eqb contact_type "") && truthy contact_value
     && bool_decide (contacts !! contact_type = None)
  then Ok (<[contact_type := contact_value]> contacts)
  else Ok contacts.

Fixpoint extract_loop (contacts : gmap string value) (details : list value)
    : result (gmap string value) :=
  match details with
  | [] => Ok contacts
  | detail :: rest =>
      contacts' ← extract_step contacts detail;
      extract_loop contacts' rest
  end.

Definition _extract_contact_details (contact_details : value)
    : result (gmap string value) :=
  details ← iter contact_details;
  extract_loop ∅ details.

Definition standardize_profile (profile : value) : result (gmap string value) :=
  cd ← get profile "contact_details" (VList []);
  contact_details ← _extract_contact_details cd;
  location ← get profile "location" (VDict ∅);
  full_name ← get profile "full_name" (VStr "");
  handle ← get profile "platform_username" (VStr "");
  url ← get profile "url" (VStr "");
  introduction ← get profile "introduction" (VStr "");
  followers ← get profile "follower_count" (VInt 0);
  engagement_rate ← get profile "engagement_rate" (VInt 0);
  city ← get location "city" VNone;
  state ← get location "state" VNone;
  country ← get location "country" VNone;
  Ok (list_to_map [
    ("first_and_last_name", full_name);
    ("flagship_social_platform_handle", handle);
    ("instagram_handle", url);
    ("instagram_bio", introduction);
    ("instagram_followers", followers);
    ("average_engagement", engagement_rate);
    ("email", DiscoveryModule.dget contact_details "email");
    ("phone", DiscoveryModule.dget contact_details "phone");
    ("tiktok_handle", DiscoveryModule.dget contact_details "tiktok");
    ("youtube_profile_link", DiscoveryModule.dget contact_details "youtube");
    ("facebook_profile_link", DiscoveryModule.dget contact_details "facebook");
    ("patreon_link", DiscoveryModule.dget contact_details "patreon");
    ("pinterest_profile_link", DiscoveryModule.dget contact_details "pinterest");
    ("city", city);
    ("state", state);
    ("country", country);
    ("flagship_social_platform", VStr "instagram");
    ("channel", VStr "Outbound");
    ("channel_host_prospected", VStr "Phyllo");
    ("funnel", VStr "Creator");
    ("enrichment_status", VStr "pending")
  ]).

Fixpoint _standardize_results (raw_results : list value) (platform : string)
    : list (gmap string value) :=
  match raw_results with
  | [] => []
  | profile :: rest =>
      match standardize_profile profile with
      | Ok standardized_profile =>
          standardized_profile :: _standardize_results rest platform
      | Raise _ => _standardize_results rest platform
      end
  end.

End Insightiq.

(** ** Celery tasks ([discovery_tasks.py]) *)

Module Tasks.

Export JobStore.

Definition is_none (v : value) : bool :=
  match v with VNone => true | _ => false end.

(** [v[:n]] *)
Definition slice_to (n : nat) (v : value) : result value :=
  match v with
  | VStr s => Ok (VStr (str_take n s))
  | VList l => Ok (VList (take n l))
  | VDict _ => type_error "unhashable type: 'slice'"
  | _ => type_error ("'" +:+ type_name v +:+ "' object is not subscriptable")
  end.

(** The HubSpot properties of one profile. *)
Definition contact_properties (E : env) (profile : gmap string value)
    (job_id : string) : M value :=
  match profile !! "profile_url" with
  | None => raise (Exn KeyError "'profile_url'")
  | Some profile_url =>
      let bio_raw := DiscoveryModule.dget profile "bio" in
      bio ← lift (if truthy bio_raw then slice_to 5000 bio_raw else Ok (VStr ""));
      discovery_date ← datetime_now E;
      let properties : gmap string value := list_to_map [
        ("platform", default (VStr "instagram") (profile !! "platform"));
        ("profile_url", profile_url);
        ("instagram_handle", default (VStr "") (profile !! "handle"));
        ("firstname", default (VStr "") (profile !! "first_name"));
        ("lastname", default (VStr "") (profile !! "last_name"));
        ("followers", default (VInt 0) (profile !! "follower_count"));
        ("engagement_rate", default (VInt 0) (profile !! "engagement_rate"));
        ("email", DiscoveryModule.dget profile "email");
        ("phone", DiscoveryModule.dget profile "phone");
        ("city", DiscoveryModule.dget profile "city");
        ("state", DiscoveryModule.dget profile "state");
        ("country", DiscoveryModule.dget profile "country");
        ("bio", bio);
        ("discovery_source", VStr "insightiq_discovery");
        ("discovery_job_id", VStr job_id);
        ("discovery_date", VStr discovery_date);
        ("enrichment_status", VStr "pending");
        ("lifecycle_stage", VStr "lead");
        ("audience_credibility", DiscoveryModule.dget profile "audience_credibility");
        ("last_post_date", DiscoveryModule.dget profile "last_post_date")
      ] in
      (* additional contact URLs *)
      let urls := filter (λ kv, str_endswith kv.1 "_url" = true ∧ kv.1 ≠ "profile_url")
                         profile in
      let properties := urls ∪ properties in
      (* remove None values *)
      let properties := filter (λ kv, is_none kv.2 = false) properties in
      mret (VDict {[ "properties" := VDict properties ]})
  end.

Fixpoint build_contacts (E : env) (profiles : list (gmap string value))
    (job_id : string) : M (list value) :=
  match profiles with
  | [] => mret []
  | profile :: rest =>
      contact ← contact_properties E profile job_id;
      contacts ← build_contacts E rest job_id;
      mret (contact :: contacts)
  end.

(** [range(0, stop, step)] *)
Definition range_step (stop step : nat) : list nat :=
  (λ k, k * step)%nat <$> seq 0 ((stop + (step - 1)) / step).

Record counters : Type := Counters { created : nat; skipped : nat }.

(** [for error in batch_errors[:3]: ... error.get('message', 'Unknown error')] *)
Fixpoint log_errors (errors : list value) : result unit :=
  match errors with
  | [] => Ok ()
  | error :: rest => _ ← get error "message" (VStr "Unknown error"); log_errors rest
  end.

(** The [try] block of one batch with its [except Exception]: the counters
    after it.  An exception leaves the additions made before it in place
    and adds the whole batch to [skipped]. *)
Definition count_batch (batch : list value) (response : http) (c : counters)
    : counters :=
  let failed c := Counters (created c) (skipped c + length batch) in
  match response with
  | Transport _ => failed c
  | Response status_code text json =>
      if status_code =? 201 then
        Counters (created c + length batch) (skipped c)
      else if status_code =? 207 then
        match (result ← json;
               results ← get result "results" (VList []);
               batch_created ← len results;
               batch_errors ← get result "errors" (VList []);
               batch_skipped ← len batch_errors;
               Ok (batch_created, batch_errors, batch_skipped)) with
        | Raise _ => failed c
        | Ok (batch_created, batch_errors, batch_skipped) =>
            let c := Counters (created c + batch_created)
                              (skipped c + batch_skipped) in
            match (first ← slice_to 3 batch_errors;
                   errors ← iter first;
                   log_errors errors) with
            | Raise _ => failed c
            | Ok _ => c
            end
        end
      else failed c
  end.

(** [requests.post(".../crm/v3/objects/contacts/batch/create", json={'inputs': batch})] *)
Definition post_batch_create (E : env) (batch : list value) : M http := λ w,
  (World (redis w) (trace w ++ [HubspotPost batch]) (clock_reads w)
         (vendor_posts w) (S (hubspot_posts w)) (polls w),
   Some (Ok (hubspot_post E (hubspot_posts w)))).

(** The [for i in range(0, len(contacts), 100)] loop. *)
Fixpoint import_batches (E : env) (contacts : list value) (starts : list nat)
    (c : counters) : M counters :=
  match starts with
  | [] => mret c
  | i :: rest =>
      let batch := take 100 (drop i contacts) in
      response ← post_batch_create E batch;
      let c := count_batch batch response c in
      _ ← (if (i + 100 <? length contacts)%nat then time_sleep 0.5 else mret ());
      import_batches E contacts rest c
  end.

Definition import_profiles_to_hubspot (E : env)
    (profiles : list (gmap string value)) (job_id : string) : M counters :=
  match getenv E "HUBSPOT_API_KEY" with
  | None | Some "" =>
      raise (Exn ValueError "HUBSPOT_API_KEY must be set in environment")
  | Some _ =>
      contacts ← build_contacts E profiles job_id;
      import_batches E contacts (range_step (length contacts) 100) (Counters 0 0)
  end.

(** [not os.getenv(name)] *)
Definition env_unset (E : env) (name : string) : bool :=
  match getenv E name with
  | None | Some "" => true
  | Some _ => false
  end.

Definition nat_value (n : nat) : value := VInt (Z.of_nat n).

(** The credentials check of the task. *)
Definition check_credentials (E : env) : result unit :=
  if env_unset E "INSIGHTIQ_CLIENT_ID" || env_unset E "INSIGHTIQ_SECRET" then
    Raise (Exn ValueError
      "INSIGHTIQ_CLIENT_ID and INSIGHTIQ_SECRET must be set in environment")
  else Ok ().

(** The lookalike validation of the task. *)
Definition validate_lookalike (user_filters : value) : result unit :=
  lookalike_type ← get user_filters "lookalike_type" VNone;
  lu ← get user_filters "lookalike_username" (VStr "");
  lookalike_username ← strip lu;
  if truthy lookalike_type
     && negb (eq_str lookalike_type "creator" || eq_str lookalike_type "audience")
  then Raise (Exn ValueError "lookalike_type must be 'creator' or 'audience'")
  else if truthy lookalike_type && String.eqb lookalike_username ""
  then Raise (Exn ValueError "lookalike_username required when lookalike_type is set")
  else Ok ().

(** What the task does once the filters are validated. *)
Definition discover_and_import (E : env) (user_filters : value) (job_id : string)
    : M value :=
  profiles ← DiscoveryModule.search_profiles E "instagram" user_filters;
  let found := nat_value (length profiles) in
  _ ← update_discovery_job_status E job_id "importing"
        {[ "profiles_found" := found ]};
  import_results ← import_profiles_to_hubspot E profiles job_id;
  _ ← update_discovery_job_status E job_id "completed"
        (list_to_map [
           ("profiles_found", found);
           ("new_contacts_created", nat_value (created import_results));
           ("duplicates_skipped", nat_value (skipped import_results))]);
  mret (VDict (list_to_map [
          ("status", VStr "completed");
          ("profiles_found", found);
          ("new_contacts", nat_value (created import_results));
          ("duplicates", nat_value (skipped import_results))])).

(** The body of the [try] of the task. *)
Definition discover_body (E : env) (user_filters : value) (job_id : string)
    : M value :=
  _ ← update_discovery_job_status E job_id "discovering" ∅;
  _ ← lift (check_credentials E);
  let user_filters := py_or user_filters (VDict ∅) in
  _ ← lift (validate_lookalike user_filters);
  discover_and_import E user_filters job_id.

(** [except Exception as e]: mark the job failed with [str(e)], re-raise. *)
Definition discover_failed (E : env) (job_id : string) (e : exn) : M value :=
  _ ← update_discovery_job_status E job_id "failed"
        {[ "error" := VStr (exn_text e) ]};
  raise e.

Definition discover_instagram_profiles (E : env) (user_filters : value)
    (job_id : string) : M value :=
  try_except (discover_body E user_filters job_id) (discover_failed E job_id).

End Tasks.

(** ** Vocabulary for the statements *)

Module Vocab.

Definition raises {A} (r : result A) : bool :=
  match r with Raise _ => true | Ok _ => false end.

Definition returned {A} (r : result A) : option A :=
  match r with Ok a => Some a | Raise _ => None end.

(** A raw record is malformed when its processing raises. *)
Definition malformed (platform : string) (profile : value) : bool :=
  raises (DiscoveryModule.standardize_profile platform profile).

(** The keys that [_extract_contact_details] can produce. *)
Definition contact_key (k : string) : Prop :=
  k = "email" ∨ k = "phone" ∨ str_endswith k "_url" = true.

(** C8 as the specification words it: the follower-count field is read, and
    the subscriber-count field only when the follower-count field is absent
    from the record. *)
Definition follower_count_as_claimed : Prop :=
  ∀ (platform : string) (d c : gmap string value),
    DiscoveryModule.standardize_profile platform (VDict d) = Ok c →
    c !! "follower_count"
    = Some (match d !! "follower_count" with
            | Some followers => followers
            | None => default (VInt 0) (d !! "subscriber_count")
            end).

(** The polling loop, started with [offset] and [acc], runs through [script]
    without leaving: every iteration is within the deadline and either finds
    the job still processing or fetches a page that is not the last. *)
Inductive keeps_polling (E : env)
    : Z → list value → list (Q * http) → Z → list value → Prop :=
  | kp_done offset acc :
      keeps_polling E offset acc [] offset acc
  | kp_wait offset acc elapsed response script offset' acc' :
      Qle_bool elapsed DiscoveryModule.max_wait_time = true →
      wrap_request_exception "Failed to fetch results: "
        (DiscoveryModule.poll_response E offset acc response)
      = Ok DiscoveryModule.StillProcessing →
      keeps_polling E offset acc script offset' acc' →
      keeps_polling E offset acc ((elapsed, response) :: script) offset' acc'
  | kp_page offset acc elapsed response acc1 script offset' acc' :
      Qle_bool elapsed DiscoveryModule.max_wait_time = true →
      wrap_request_exception "Failed to fetch results: "
        (DiscoveryModule.poll_response E offset acc response)
      = Ok (DiscoveryModule.NextPage acc1) →
      keeps_polling E (offset + DiscoveryModule.limit) acc1 script offset' acc' →
      keeps_polling E offset acc ((elapsed, response) :: script) offset' acc'.

(** Events of the polling loop. *)
Definition poll_event (ev : event) : Prop :=
  match ev with
  | VendorGet _ _ _ | Sleep _ => True
  | _ => False
  end.

(** What a stretch of the loop leaves behind: the counters and Redis
    untouched, and only polling events added to the trace. *)
Definition polled_from (w w1 : world) : Prop :=
  redis w1 = redis w ∧ clock_reads w1 = clock_reads w
  ∧ vendor_posts w1 = vendor_posts w ∧ hubspot_posts w1 = hubspot_posts w
  ∧ ∃ evs, trace w1 = trace w ++ evs ∧ Forall poll_event evs.

(** The record the status update starts from is absent or a JSON object. *)
Definition record_ok (w : world) (job_id : string) : Prop :=
  match redis w !! JobStore.job_key job_id with
  | None | Some (_, VDict _) => True
  | Some _ => False
  end.

(** The record an update starts from, the record it stores, and the world
    it leaves. *)
Definition base_record (w : world) (job_id : string) : gmap string value :=
  match redis w !! JobStore.job_key job_id with
  | Some (_, VDict d) => d
  | _ => {[ "job_id" := VStr job_id ]}
  end.

Definition updated_record (E : env) (w : world) (job_id status : string)
    (kwargs : gmap string value) : gmap string value :=
  JobStore.merge_fields (base_record w job_id) status
    (now_iso E (clock_reads w)) kwargs.

Definition after_update (E : env) (job_id status : string)
    (kwargs : gmap string value) (w : world) : world :=
  let rec := VDict (updated_record E w job_id status kwargs) in
  World (<[JobStore.job_key job_id := (86400, rec)]> (redis w))
        (trace w ++ [RedisSetex (JobStore.job_key job_id) 86400 rec])
        (S (clock_reads w)) (vendor_posts w) (hubspot_posts w) (polls w).

(** A computation only appends to the trace. *)
Definition appends {A} (m : M A) : Prop :=
  ∀ w, ∃ evs, trace (m w).1 = trace w ++ evs.

(** What [_fetch_results] raises past the deadline. *)
Definition timeout_error : exn := Exn Exception "Job timeout after 600 seconds".

End Vocab.

(** ** Concrete inputs used by the examples below *)

Module Samples.

(** Credentials and API key set; the vendor accepts the job and serves one
    final page; the CRM answers 201 to every batch. *)
Definition sample_page (status : string) (data : list value) (total : Z) : http :=
  Response 200 ""
    (Ok (VDict (list_to_map [
       ("status", VStr status);
       ("data", VList data);
       ("metadata", VDict {[ "total_results" := VInt total ]})]))).

Definition sample_env : env := {|
  environ := list_to_map [("INSIGHTIQ_CLIENT_ID", "id"); ("INSIGHTIQ_SECRET", "secret");
                          ("HUBSPOT_API_KEY", "key")];
  now_iso := λ _, "2024-01-01T00:00:00";
  vendor_post := λ _, Response 200 "" (Ok (VDict {[ "id" := VStr "export-1" ]}));
  hubspot_post := λ _, Response 201 "" (Ok (VDict ∅));
  format := λ _, "";
|}.

Definition sample_world (script : list (Q * http)) : world := {|
  redis := ∅; trace := []; clock_reads := 0; vendor_posts := 0;
  hubspot_posts := 0; polls := script;
|}.

Definition in_progress : http :=
  Response 200 "" (Ok (VDict {[ "status" := VStr "IN_PROGRESS" ]})).

Definition raw_profile (name : string) (followers : Z) : value :=
  VDict (list_to_map [
    ("url", VStr ("https://instagram.com/" +:+ name));
    ("platform_username", VStr name);
    ("full_name", VStr name);
    ("follower_count", VInt followers)]).

(** Two entries of the same contact type (the type is compared in lower case). *)
Definition duplicate_emails : value :=
  VList [VDict (list_to_map [("type", VStr "EMAIL"); ("value", VStr "first@example.com")]);
         VDict (list_to_map [("type", VStr "email"); ("value", VStr "second@example.com")])].

(** A record whose follower count is present and zero. *)
Definition zero_followers : gmap string value :=
  list_to_map [("follower_count", VInt 0); ("subscriber_count", VInt 1200)].

(** A poll script: one IN_PROGRESS answer, a final page, and a later page
    that reports another total. *)
Definition final_page : gmap string value :=
  list_to_map [("status", VStr "FINISHED");
               ("data", VList [raw_profile "ann" 100]);
               ("metadata", VDict {[ "total_results" := VInt 1 ]})].

Definition later_page : Q * http :=
  (120%Q, sample_page "FINISHED" [raw_profile "bob" 200] 500).

Definition finishing_script : list (Q * http) :=
  [(0%Q, in_progress); (60%Q, Response 200 "" (Ok (VDict final_page))); later_page].

(** A poll script that is still IN_PROGRESS when the deadline has passed. *)
Definition late_script : list (Q * http) :=
  [(0%Q, in_progress); (60%Q, in_progress); (660%Q, in_progress)].

(** Filters with a lookalike handle and no lookalike type. *)
Definition handle_without_type : gmap string value :=
  {[ "lookalike_username" := VStr "natgeo" ]}.

(** Filters with a lookalike type and a blank handle. *)
Definition type_without_handle : gmap string value :=
  list_to_map [("lookalike_type", VStr "creator"); ("lookalike_username", VStr "  ")].

(** One final page and nothing else. *)
Definition one_page_script : list (Q * http) :=
  [(0%Q, Response 200 "" (Ok (VDict final_page)))].

End Samples.
(** * Properties *)

(** ** Sanity checks of the string helpers *)

Example str_strip_example : str_strip "  @ab c  " = "@ab c".
Proof. reflexivity. Qed.

Example str_split_example :
  str_capitalize <$> str_split " john  von NEUMANN " = ["John"; "Von"; "Neumann"].
Proof. reflexivity. Qed.

Example str_endswith_example :
  str_endswith "twitter_url" "_url" = true ∧ str_endswith "url" "_url" = false.
Proof. split; reflexivity. Qed.

(** ** Job status store *)

Section JobStoreProps.
Import JobStore.

Lemma merge_fields_status (d kwargs : gmap string value) status now :
  kwargs !! "status" = None →
  merge_fields d status now kwargs !! "status" = Some (VStr status).
Proof.
  intros Hk. unfold merge_fields.
  rewrite lookup_union_r by done.
  rewrite lookup_insert_ne by done.
  by rewrite lookup_insert_eq.
Qed.

Lemma merge_fields_updated_at (d kwargs : gmap string value) status now :
  kwargs !! "updated_at" = None →
  merge_fields d status now kwargs !! "updated_at" = Some (VStr now).
Proof.
  intros Hk. unfold merge_fields.
  rewrite lookup_union_r by done.
  by rewrite lookup_insert_eq.
Qed.

Lemma merge_fields_supplied (d kwargs : gmap string value) status now k v :
  kwargs !! k = Some v →
  merge_fields d status now kwargs !! k = Some v.
Proof. intros Hk. unfold merge_fields. by apply lookup_union_Some_l. Qed.

Lemma merge_fields_other (d kwargs : gmap string value) status now k :
  k ≠ "status" → k ≠ "updated_at" → kwargs !! k = None →
  merge_fields d status now kwargs !! k = d !! k.
Proof.
  intros H1 H2 Hk. unfold merge_fields.
  rewrite lookup_union_r by done.
  by rewrite !lookup_insert_ne.
Qed.

(** C9. After [update_discovery_job_status job_id status kwargs], the
    record stored under the job's key has the supplied status, the
    timestamp read from the clock during the call, every supplied field
    with its supplied value and every other field as it was; its TTL is
    86400 seconds; no other key changes.  With no record stored before,
    the update starts from the bare record [{'job_id': job_id}].  (Python
    binds [status] positionally, so it cannot occur among the keyword
    fields; a keyword field named [updated_at] would replace the stamp.) *)
Theorem update_discovery_job_status_spec
    (E : env) (job_id status : string) (kwargs base : gmap string value) (w : world) :
  (redis w !! job_key job_id = None ∧ base = {[ "job_id" := VStr job_id ]})
    ∨ (∃ ttl, redis w !! job_key job_id = Some (ttl, VDict base)) →
  kwargs !! "status" = None →
  kwargs !! "updated_at" = None →
  ∃ w' rec,
    update_discovery_job_status E job_id status kwargs w = (w', Some (Ok ())) ∧
    redis w' !! job_key job_id = Some (86400, VDict rec) ∧
    rec !! "status" = Some (VStr status) ∧
    rec !! "updated_at" = Some (VStr (now_iso E (clock_reads w))) ∧
    clock_reads w' = S (clock_reads w) ∧
    (∀ k v, kwargs !! k = Some v → rec !! k = Some v) ∧
    (∀ k, k ≠ "status" → k ≠ "updated_at" → kwargs !! k = None →
          rec !! k = base !! k) ∧
    (∀ key, key ≠ job_key job_id → redis w' !! key = redis w !! key).
Proof.
  intros Hpre Hst Hup.
  set (now := now_iso E (clock_reads w)).
  assert (Hrun : ∃ w', update_discovery_job_status E job_id status kwargs w
                       = (w', Some (Ok ())) ∧
                 redis w' = <[job_key job_id := (86400, VDict (merge_fields base status now kwargs))]> (redis w) ∧
                 clock_reads w' = S (clock_reads w)).
  { unfold update_discovery_job_status, redis_get, datetime_now, redis_setex,
      mbind, M_bind; simpl.
    destruct Hpre as [[Hnone ->] | [ttl Hsome]].
    - rewrite Hnone; simpl. eexists; split; [reflexivity|]. by simpl.
    - rewrite Hsome; simpl. eexists; split; [reflexivity|]. by simpl. }
  destruct Hrun as (w' & Hrun & Hredis & Hclock).
  exists w', (merge_fields base status now kwargs).
  split; [done|]. rewrite Hredis.
  split; [by rewrite lookup_insert_eq|].
  split; [by apply merge_fields_status|].
  split; [by apply merge_fields_updated_at|].
  split; [done|].
  split; [intros k v Hk; by apply merge_fields_supplied|].
  split; [intros k ???; by apply merge_fields_other|].
  intros key Hkey. by rewrite lookup_insert_ne.
Qed.

End JobStoreProps.

Lemma update_discovery_job_status_spec_witness :
  let kwargs : gmap string value := {[ "profiles_found" := VInt 3 ]} in
  let base : gmap string value := {[ "job_id" := VStr "j1" ]} in
  let w := Samples.sample_world [] in
  ((redis w !! JobStore.job_key "j1" = None ∧ base = {[ "job_id" := VStr "j1" ]})
    ∨ (∃ ttl, redis w !! JobStore.job_key "j1" = Some (ttl, VDict base))) ∧
  kwargs !! "status" = None ∧
  kwargs !! "updated_at" = None ∧
  ∃ w' rec,
    JobStore.update_discovery_job_status Samples.sample_env "j1" "importing" kwargs w
      = (w', Some (Ok ())) ∧
    redis w' !! JobStore.job_key "j1" = Some (86400, VDict rec) ∧
    rec !! "status" = Some (VStr "importing") ∧
    rec !! "updated_at" = Some (VStr (now_iso Samples.sample_env (clock_reads w))) ∧
    clock_reads w' = S (clock_reads w) ∧
    (∀ k v, kwargs !! k = Some v → rec !! k = Some v) ∧
    (∀ k, k ≠ "status" → k ≠ "updated_at" → kwargs !! k = None →
          rec !! k = base !! k) ∧
    (∀ key, key ≠ JobStore.job_key "j1" → redis w' !! key = redis w !! key).
Proof.
  intros kwargs base w.
  assert (H1 : (redis w !! JobStore.job_key "j1" = None
                ∧ base = {[ "job_id" := VStr "j1" ]})
               ∨ (∃ ttl, redis w !! JobStore.job_key "j1" = Some (ttl, VDict base))).
  { left. split; reflexivity. }
  assert (H2 : kwargs !! "status" = None) by reflexivity.
  assert (H3 : kwargs !! "updated_at" = None) by reflexivity.
  split; [exact H1|]. split; [exact H2|]. split; [exact H3|].
  exact (update_discovery_job_status_spec Samples.sample_env "j1" "importing"
           kwargs base w H1 H2 H3).
Defined.

(** ** Standardization *)

Section StandardizeProps.
Import DiscoveryModule Vocab.

Lemma standardize_results_omap (raw : list value) (platform : string) :
  _standardize_results raw platform
  = omap (λ p, returned (standardize_profile platform p)) raw.
Proof.
  induction raw as [|p raw IH]; [done|]. simpl.
  destruct (standardize_profile platform p); simpl; by rewrite IH.
Qed.

Lemma standardize_results_app (l1 l2 : list value) (platform : string) :
  _standardize_results (l1 ++ l2) platform
  = _standardize_results l1 platform ++ _standardize_results l2 platform.
Proof.
  induction l1 as [|p l1 IH]; [done|]. simpl.
  destruct (standardize_profile platform p); simpl; by rewrite IH.
Qed.

Lemma standardize_results_count (raw : list value) (platform : string) :
  (length (_standardize_results raw platform)
   + length (filter (λ p, malformed platform p = true) raw) = length raw)%nat.
Proof.
  induction raw as [|p raw IH]; [done|].
  simpl. rewrite filter_cons. unfold malformed in *.
  destruct (standardize_profile platform p); simpl; lia.
Qed.

(** C6. Of N raw records of which K raise during processing, exactly
    N − K canonical profiles come out; the output is the list of the
    profiles of the records that do not raise, each computed from its own
    record (and the platform) alone, in input order; a record that raises
    does not touch the records before or after it. *)
Theorem standardize_results_independent (raw : list value) (platform : string) :
  let K := length (filter (λ p, malformed platform p = true) raw) in
  length (_standardize_results raw platform) = (length raw - K)%nat
  ∧ (K ≤ length raw)%nat
  ∧ _standardize_results raw platform
    = omap (λ p, returned (standardize_profile platform p)) raw
  ∧ ∀ before p after,
      _standardize_results (before ++ p :: after) platform
      = _standardize_results before platform
        ++ match standardize_profile platform p with
           | Ok c => [c]
           | Raise _ => []
           end
        ++ _standardize_results after platform.
Proof.
  intros K. pose proof (standardize_results_count raw platform) as Hc.
  fold K in Hc.
  split; [lia|]. split; [lia|].
  split; [apply standardize_results_omap|].
  intros before p after.
  rewrite standardize_results_app. f_equal. simpl.
  by destruct (standardize_profile platform p).
Qed.

(** One record without a usable location among three: two profiles. *)
Example standardize_results_skips_malformed :
  let bad := VDict {[ "creator_location" := VNone ]} in
  let raw := [Samples.raw_profile "ann lee" 100; bad; Samples.raw_profile "bob" 200] in
  malformed "instagram" bad = true
  ∧ (λ c, c !! "handle") <$> _standardize_results raw "instagram"
    = [Some (VStr "ann lee"); Some (VStr "bob")]
  ∧ (λ c, c !! "last_name") <$> _standardize_results raw "instagram"
    = [Some (VStr "Lee"); Some (VStr "")].
Proof. vm_compute. done. Qed.

(** *** Contact details *)

(** C7, on [discovery_module.py]: with two entries of type email the
    extraction keeps one value, and it is the value of the second entry. *)
Theorem extract_contact_details_keeps_last :
  ∃ contacts,
    _extract_contact_details Samples.duplicate_emails = Ok contacts
    ∧ contacts !! "email" = Some (VStr "second@example.com")
    ∧ contacts !! "email" ≠ Some (VStr "first@example.com")
    ∧ size contacts = 1%nat.
Proof.
  eexists. split; [vm_compute; reflexivity|].
  split; [vm_compute; reflexivity|].
  split; [vm_compute; discriminate|vm_compute; reflexivity].
Qed.

(** The copy in [app/services/insightiq.py] keeps the first one there. *)
Example insightiq_extract_keeps_first :
  ∃ contacts,
    Insightiq._extract_contact_details Samples.duplicate_emails = Ok contacts
    ∧ contacts !! "email" = Some (VStr "first@example.com").
Proof. eexists. split; vm_compute; reflexivity. Qed.

(** In [discovery_module.py] the last stored entry of a key wins in general. *)
Lemma extract_step_overwrites (contacts : gmap string value) (d : gmap string value)
    (t : string) (v : value) :
  d !! "type" = Some (VStr t) → d !! "value" = Some v →
  str_lower t = "email" → truthy v = true →
  extract_step contacts (VDict d) = Ok (<["email" := v]> contacts).
Proof.
  intros Ht Hv Hl Htr. unfold extract_step. simpl.
  rewrite Ht, Hv. simpl. rewrite Hl, Htr. reflexivity.
Qed.

(** In [app/services/insightiq.py] a stored key is never overwritten. *)
Lemma insightiq_extract_step_keeps (contacts contacts' : gmap string value)
    (detail : value) (k : string) (v : value) :
  Insightiq.extract_step contacts detail = Ok contacts' →
  contacts !! k = Some v → contacts' !! k = Some v.
Proof.
  unfold Insightiq.extract_step. intros Hstep Hk.
  destruct (get detail "type" (VStr "")) as [t|]; simpl in Hstep; [|done].
  destruct (lower t) as [ct|]; simpl in Hstep; [|done].
  destruct (get detail "value" (VStr "")) as [cv|]; simpl in Hstep; [|done].
  destruct (negb (String.eqb ct "") && truthy cv); simpl in Hstep;
    [|by simplify_eq].
  case_bool_decide as Hfree; simpl in Hstep; simplify_eq; [|done].
  rewrite lookup_insert_ne; [done|]. intros ->. congruence.
Qed.

Lemma insightiq_extract_loop_keeps (details : list value)
    (contacts contacts' : gmap string value) (k : string) (v : value) :
  Insightiq.extract_loop contacts details = Ok contacts' →
  contacts !! k = Some v → contacts' !! k = Some v.
Proof.
  revert contacts. induction details as [|d details IH]; intros contacts; simpl.
  - intros [= <-]. done.
  - destruct (Insightiq.extract_step contacts d) as [c1|] eqn:Hs; simpl; [|done].
    intros Hloop Hk. apply (IH c1 Hloop).
    by eapply insightiq_extract_step_keeps.
Qed.

End StandardizeProps.

(** ** Follower count *)

Section FollowerProps.
Import DiscoveryModule Vocab.

Lemma str_length_app (s t : string) :
  String.length (s +:+ t) = (String.length s + String.length t)%nat.
Proof. induction s as [|a s IH]; simpl; [done|]. by rewrite IH. Qed.

Lemma substring_app_skip (s t : string) (m : nat) :
  String.substring (String.length s) m (s +:+ t) = String.substring 0 m t.
Proof. induction s as [|a s IH]; simpl; [done|]. exact IH. Qed.

Lemma str_endswith_app (s : string) : str_endswith (s +:+ "_url") "_url" = true.
Proof.
  unfold str_endswith. rewrite str_length_app.
  change (String.length "_url") with 4%nat.
  rewrite (proj2 (Nat.leb_le 4 (String.length s + 4))) by lia.
  replace (String.length s + 4 - 4)%nat with (String.length s) by lia.
  rewrite substring_app_skip. reflexivity.
Qed.

Lemma extract_step_keys (contacts contacts' : gmap string value) (detail : value) :
  extract_step contacts detail = Ok contacts' →
  (∀ k, is_Some (contacts !! k) → contact_key k) →
  ∀ k, is_Some (contacts' !! k) → contact_key k.
Proof.
  unfold extract_step. intros Hstep Hinv.
  destruct (get detail "type" (VStr "")) as [t|]; simpl in Hstep; [|done].
  destruct (lower t) as [ct|]; simpl in Hstep; [|done].
  destruct (get detail "value" (VStr "")) as [cv|]; simpl in Hstep; [|done].
  destruct (negb (String.eqb ct "") && truthy cv); simpl in Hstep;
    [|by simplify_eq].
  destruct (String.eqb ct "email" || String.eqb ct "phone") eqn:Hep;
    simplify_eq; intros k Hk.
  - destruct (decide (ct = k)) as [<-|Hne].
    + apply orb_prop in Hep as [H|H]; apply String.eqb_eq in H; subst;
        [by left|by right; left].
    + rewrite lookup_insert_ne in Hk by done. by apply Hinv.
  - destruct (decide (ct +:+ "_url" = k)) as [<-|Hne].
    + right; right. apply str_endswith_app.
    + rewrite lookup_insert_ne in Hk by done. by apply Hinv.
Qed.

Lemma extract_loop_keys (details : list value) (contacts contacts' : gmap string value) :
  extract_loop contacts details = Ok contacts' →
  (∀ k, is_Some (contacts !! k) → contact_key k) →
  ∀ k, is_Some (contacts' !! k) → contact_key k.
Proof.
  revert contacts. induction details as [|d details IH]; intros contacts; simpl.
  - intros [= <-]. done.
  - destruct (extract_step contacts d) as [c1|] eqn:Hs; simpl; [|done].
    intros Hloop Hinv. apply (IH c1 Hloop).
    by eapply extract_step_keys.
Qed.

Lemma extract_contact_details_keys (cd : value) (contacts : gmap string value) :
  _extract_contact_details cd = Ok contacts →
  ∀ k, is_Some (contacts !! k) → contact_key k.
Proof.
  unfold _extract_contact_details.
  destruct (iter cd) as [details|]; simpl; [|done].
  intros Hloop. eapply extract_loop_keys; [done|].
  intros k [v Hv]. by rewrite lookup_empty in Hv.
Qed.

(** A field of the canonical profile whose name is not a contact key is
    the one the dict literal gives it. *)
Lemma standardize_profile_dict (platform : string) (profile : value)
    (c : gmap string value) :
  standardize_profile platform profile = Ok c →
  ∃ d, profile = VDict d.
Proof.
  destruct profile; simpl; try done. eauto.
Qed.

(** C8 as amended. The canonical follower count of a record is the value
    of its follower-count field when that value is truthy; when the field
    is absent or holds a falsy value (null, 0, an empty string) it is the
    value of the subscriber-count field, and 0 when that is absent. *)
Theorem follower_count_fallback (platform : string) (d c : gmap string value) :
  standardize_profile platform (VDict d) = Ok c →
  c !! "follower_count"
  = Some (let followers := default VNone (d !! "follower_count") in
          if truthy followers then followers
          else default (VInt 0) (d !! "subscriber_count")).
Proof.
  unfold standardize_profile. simpl.
  destruct (_extract_contact_details _) as [contacts|] eqn:Hcd; simpl; [|done].
  destruct (if truthy _ then _ else _) as [name_parts|]; simpl; [|done].
  destruct (get (default (VDict ∅) (d !! "creator_location")) "city" VNone);
    simpl; [|done].
  destruct (get (default (VDict ∅) (d !! "creator_location")) "state" VNone);
    simpl; [|done].
  destruct (get (default (VDict ∅) (d !! "creator_location")) "country" VNone);
    simpl; [|done].
  intros [= <-].
  rewrite lookup_union_r.
  - rewrite !lookup_insert_ne by done. rewrite lookup_insert_eq. reflexivity.
  - apply map_lookup_filter_None. left.
    destruct (contacts !! "follower_count") eqn:Hk; [|done].
    exfalso.
    destruct (extract_contact_details_keys _ _ Hcd "follower_count")
      as [?|[?|?]]; [by eexists|done..].
Qed.

Lemma follower_count_fallback_witness :
  ∃ c, standardize_profile "instagram" (VDict Samples.zero_followers) = Ok c
       ∧ c !! "follower_count" = Some (VInt 1200).
Proof.
  destruct (standardize_profile "instagram" (VDict Samples.zero_followers))
    as [c|e] eqn:H.
  - exists c. split; [reflexivity|].
    etrans; [exact (follower_count_fallback "instagram" _ _ H)|].
    reflexivity.
  - vm_compute in H. discriminate.
Defined.

(** C8 as stated fails: a follower-count field that is present and zero is
    passed over for the subscriber count. *)
Lemma follower_count_present_but_ignored : ¬ follower_count_as_claimed.
Proof.
  intros Hclaim.
  destruct (standardize_profile "instagram" (VDict Samples.zero_followers))
    as [c|e] eqn:H.
  - pose proof (Hclaim "instagram" _ _ H) as Hc.
    pose proof (follower_count_fallback "instagram" _ _ H) as Hf.
    rewrite Hf in Hc. vm_compute in Hc. discriminate.
  - vm_compute in H. discriminate.
Qed.

(** The copy in [app/services/insightiq.py] has no fallback at all. *)
Example insightiq_followers_no_fallback :
  ∃ c, Insightiq.standardize_profile (VDict {[ "subscriber_count" := VInt 1200 ]}) = Ok c
       ∧ c !! "instagram_followers" = Some (VInt 0).
Proof. eexists. split; vm_compute; reflexivity. Qed.

End FollowerProps.

(** ** Vendor client *)

Section VendorProps.
Import Vocab.

(** C5. [_start_job] posts the request exactly once, whatever comes back.
    A response whose status code is neither 200 nor 202 raises "Failed to
    start job" with the response text; an accepted response whose JSON
    object has no (or an empty) id raises as well; in no case is the
    request posted again.  Both copies of the client behave so
    ([discovery_module.py] accepts only 200 and so raises on 202 too). *)
Theorem start_job_once_and_fatal (E : env) (parameters : gmap string value) (w : world) :
  let response := vendor_post E (vendor_posts w) in
  let run := DiscoveryModule._start_job E parameters w in
  let run' := Insightiq._start_job E parameters w in
  (vendor_posts run.1 = S (vendor_posts w)
   ∧ trace run.1 = trace w ++ [VendorPost parameters]
   ∧ run'.1 = run.1)
  ∧ (∀ code text json,
       response = Response code text json → code ≠ 200 → code ≠ 202 →
       run.2 = Some (Raise (Exn Exception ("Failed to start job: " +:+ text)))
       ∧ run'.2 = run.2)
  ∧ (∀ code text body,
       response = Response code text (Ok (VDict body)) →
       truthy (default VNone (body !! "id")) = false →
       (∃ e, run.2 = Some (Raise e) ∧ exn_cls e = Exception)
       ∧ (∃ e, run'.2 = Some (Raise e) ∧ exn_cls e = Exception)).
Proof.
  intros response run run'. subst run run'.
  unfold DiscoveryModule._start_job, Insightiq._start_job,
    DiscoveryModule.post_search_export, lift, mbind, M_bind. simpl.
  fold response.
  split; [done|]. split.
  - intros code text json -> H200 H202. simpl.
    rewrite (proj2 (Z.eqb_neq code 200)) by done.
    rewrite (proj2 (Z.eqb_neq code 202)) by done. simpl. done.
  - intros code text body -> Hid. simpl.
    rewrite Hid. simpl.
    destruct (code =? 200) eqn:H200; simpl.
    + split; eexists; (split; [reflexivity|reflexivity]).
    + split; [eexists; split; reflexivity|].
      destruct (code =? 202); simpl; eexists; split; reflexivity.
Qed.

Lemma start_job_once_and_fatal_witness :
  let E := Env ∅ (λ _, "") (λ _, Response 500 "Internal Server Error" (Ok VNone))
               (λ _, Transport "") (λ _, "") in
  let w := Samples.sample_world [] in
  (DiscoveryModule._start_job E ∅ w).2
  = Some (Raise (Exn Exception "Failed to start job: Internal Server Error"))
  ∧ vendor_posts (DiscoveryModule._start_job E ∅ w).1 = 1%nat.
Proof.
  intros E w.
  destruct (start_job_once_and_fatal E ∅ w) as ((Hposts & _ & _) & Hcode & _).
  split.
  - refine (proj1 (Hcode 500 "Internal Server Error" (Ok VNone) _ _ _));
      [reflexivity|lia|lia].
  - exact Hposts.
Defined.

(** An accepted response with an id starts the job. *)
Example start_job_accepts :
  (DiscoveryModule._start_job Samples.sample_env ∅ (Samples.sample_world [])).2
  = Some (Ok (VStr "export-1")).
Proof. reflexivity. Qed.

(** *** The polling loop *)

Lemma polled_from_refl (w : world) : polled_from w w.
Proof.
  repeat split. exists []. split; [by rewrite app_nil_r|constructor].
Qed.

Lemma polled_from_trans (w w1 w2 : world) :
  polled_from w w1 → polled_from w1 w2 → polled_from w w2.
Proof.
  intros (Hr & Hc & Hv & Hh & evs & Ht & Hf) (Hr' & Hc' & Hv' & Hh' & evs' & Ht' & Hf').
  repeat split; try congruence.
  exists (evs ++ evs'). split; [|by apply Forall_app].
  by rewrite Ht', Ht, app_assoc.
Qed.

Lemma polled_from_set_polls (w : world) (rest : list (Q * http)) :
  polled_from w (DiscoveryModule.set_polls rest w).
Proof.
  repeat split. exists []. split; [by rewrite app_nil_r|constructor].
Qed.

Lemma polled_from_log (w : world) (ev : event) :
  poll_event ev → polled_from w (DiscoveryModule.log_event ev w).
Proof.
  intros Hev. repeat split. exists [ev]. split; [done|].
  by constructor.
Qed.

(** One iteration of the loop within the deadline. *)
Lemma fetch_loop_within (E : env) (job_id : value) (elapsed : Q) (response : http)
    (rest : list (Q * http)) (offset : Z) (acc : list value) (w : world) :
  Qle_bool elapsed DiscoveryModule.max_wait_time = true →
  DiscoveryModule.fetch_loop E job_id ((elapsed, response) :: rest) offset acc w
  = let w := DiscoveryModule.log_event
               (VendorGet job_id offset DiscoveryModule.limit)
               (DiscoveryModule.set_polls rest w) in
    match wrap_request_exception "Failed to fetch results: "
            (DiscoveryModule.poll_response E offset acc response) with
    | Raise e => (w, Some (Raise e))
    | Ok DiscoveryModule.StillProcessing =>
        DiscoveryModule.fetch_loop E job_id rest offset acc
          (DiscoveryModule.log_event (Sleep 60) w)
    | Ok (DiscoveryModule.NextPage all_results) =>
        DiscoveryModule.fetch_loop E job_id rest
          (offset + DiscoveryModule.limit) all_results w
    | Ok (DiscoveryModule.Finished all_results) => (w, Some (Ok all_results))
    end.
Proof. intros Hel. simpl. rewrite Hel. reflexivity. Qed.

(** One iteration of the loop past the deadline. *)
Lemma fetch_loop_late (E : env) (job_id : value) (elapsed : Q) (response : http)
    (rest : list (Q * http)) (offset : Z) (acc : list value) (w : world) :
  Qle_bool elapsed DiscoveryModule.max_wait_time = false →
  DiscoveryModule.fetch_loop E job_id ((elapsed, response) :: rest) offset acc w
  = (DiscoveryModule.set_polls rest w,
     Some (Raise (Exn Exception "Job timeout after 600 seconds"))).
Proof. intros Hel. simpl. rewrite Hel. reflexivity. Qed.

(** A stretch through which the loop keeps polling can be skipped. *)
Lemma fetch_loop_keeps_polling (E : env) (job_id : value)
    (pre : list (Q * http)) (offset : Z) (acc : list value)
    (offset' : Z) (acc' : list value) :
  keeps_polling E offset acc pre offset' acc' →
  ∀ (script : list (Q * http)) (w : world),
    script ≠ [] →
    ∃ w1, polled_from w w1
          ∧ DiscoveryModule.fetch_loop E job_id (pre ++ script) offset acc w
            = DiscoveryModule.fetch_loop E job_id script offset' acc' w1.
Proof.
  induction 1 as [offset acc
                 |offset acc elapsed response pre offset' acc' Hel Hstep _ IH
                 |offset acc elapsed response acc1 pre offset' acc' Hel Hstep _ IH];
    intros script w Hne.
  - exists w. split; [apply polled_from_refl|done].
  - simpl app. rewrite fetch_loop_within by done. simpl. rewrite Hstep.
    destruct (IH script
                (DiscoveryModule.log_event (Sleep 60)
                   (DiscoveryModule.log_event
                      (VendorGet job_id offset DiscoveryModule.limit)
                      (DiscoveryModule.set_polls (pre ++ script) w))) Hne)
      as (w1 & Hp & Heq).
    exists w1. split; [|exact Heq].
    eapply polled_from_trans; [|exact Hp].
    eapply polled_from_trans; [apply polled_from_set_polls|].
    eapply polled_from_trans; apply polled_from_log; exact I.
  - simpl app. rewrite fetch_loop_within by done. simpl. rewrite Hstep.
    destruct (IH script
                (DiscoveryModule.log_event
                   (VendorGet job_id offset DiscoveryModule.limit)
                   (DiscoveryModule.set_polls (pre ++ script) w)) Hne)
      as (w1 & Hp & Heq).
    exists w1. split; [|exact Heq].
    eapply polled_from_trans; [|exact Hp].
    eapply polled_from_trans; [apply polled_from_set_polls|].
    apply polled_from_log; exact I.
Qed.

(** A page that ends the loop, read at the level of its JSON fields. *)
Lemma poll_response_final (E : env) (offset : Z) (acc : list value)
    (code_text : string) (page md : gmap string value)
    (batch : list value) (total : Z) :
  eq_str (default VNone (page !! "status")) "IN_PROGRESS" = false →
  eq_str (default VNone (page !! "status")) "FAILED" = false →
  default (VList []) (page !! "data") = VList batch →
  default (VDict ∅) (page !! "metadata") = VDict md →
  default (VInt 0) (md !! "total_results") = VInt total →
  total ≤ offset + DiscoveryModule.limit ∨ batch = [] →
  DiscoveryModule.poll_response E offset acc
    (Response 200 code_text (Ok (VDict page)))
  = Ok (DiscoveryModule.Finished (acc ++ batch)).
Proof.
  intros Hip Hf Hdata Hmd Htot Hend.
  unfold DiscoveryModule.poll_response. simpl.
  rewrite Hip, Hf, Hdata. simpl. rewrite Hmd. simpl. rewrite Htot. simpl.
  destruct (total <=? offset + DiscoveryModule.limit) eqn:Hle; [done|].
  destruct Hend as [Hend| ->]; [apply Z.leb_gt in Hle; lia|done].
Qed.

(** C2. The loop returns with success, and with everything accumulated so
    far plus the page's own data, at the first page that is neither
    IN_PROGRESS nor FAILED and has [offset + limit >= total_results] or an
    empty data list.  The rest of the script is left unread, so nothing a
    later page would report can change the result. *)
Theorem fetch_results_stops_at_first_final_page
    (E : env) (job_id : value) (w : world)
    (pre rest : list (Q * http)) (elapsed : Q) (text : string)
    (page md : gmap string value) (batch : list value) (total : Z)
    (offset : Z) (acc : list value) :
  polls w = pre ++ (elapsed, Response 200 text (Ok (VDict page))) :: rest →
  keeps_polling E 0 [] pre offset acc →
  Qle_bool elapsed DiscoveryModule.max_wait_time = true →
  eq_str (default VNone (page !! "status")) "IN_PROGRESS" = false →
  eq_str (default VNone (page !! "status")) "FAILED" = false →
  default (VList []) (page !! "data") = VList batch →
  default (VDict ∅) (page !! "metadata") = VDict md →
  default (VInt 0) (md !! "total_results") = VInt total →
  total ≤ offset + DiscoveryModule.limit ∨ batch = [] →
  ∃ w', DiscoveryModule._fetch_results E job_id w = (w', Some (Ok (acc ++ batch)))
        ∧ polls w' = rest.
Proof.
  intros Hpolls Hpre Hel Hip Hf Hdata Hmd Htot Hend.
  unfold DiscoveryModule._fetch_results. rewrite Hpolls.
  destruct (fetch_loop_keeps_polling E job_id pre 0 [] offset acc Hpre
              ((elapsed, Response 200 text (Ok (VDict page))) :: rest) w)
    as (w1 & _ & ->); [done|].
  rewrite fetch_loop_within by done.
  rewrite (poll_response_final E offset acc text page md batch total)
    by assumption.
  simpl. eexists. split; [reflexivity|]. reflexivity.
Qed.

Lemma keeps_polling_in_progress (E : env) (elapsed : Q) (offset : Z)
    (acc : list value) (script : list (Q * http)) (offset' : Z) (acc' : list value) :
  Qle_bool elapsed DiscoveryModule.max_wait_time = true →
  keeps_polling E offset acc script offset' acc' →
  keeps_polling E offset acc ((elapsed, Samples.in_progress) :: script) offset' acc'.
Proof. intros Hel Hk. by apply kp_wait. Qed.

Lemma fetch_results_stops_at_first_final_page_witness :
  ∃ w', DiscoveryModule._fetch_results Samples.sample_env (VStr "export-1")
          (Samples.sample_world Samples.finishing_script)
        = (w', Some (Ok ([] ++ [Samples.raw_profile "ann" 100])))
        ∧ polls w' = [Samples.later_page].
Proof.
  apply (fetch_results_stops_at_first_final_page Samples.sample_env
           (VStr "export-1") (Samples.sample_world Samples.finishing_script)
           [(0%Q, Samples.in_progress)] [Samples.later_page] 60%Q ""
           Samples.final_page {[ "total_results" := VInt 1 ]}
           [Samples.raw_profile "ann" 100] 1 0 []).
  - reflexivity.
  - apply keeps_polling_in_progress; [reflexivity|constructor].
  - reflexivity.
  - reflexivity.
  - reflexivity.
  - reflexivity.
  - reflexivity.
  - reflexivity.
  - left. unfold DiscoveryModule.limit. lia.
Defined.

(** C3, in the client: when the elapsed time read at the top of an
    iteration exceeds 600 seconds the loop raises the timeout, whatever
    offset it has reached and whatever it has accumulated; nothing of the
    accumulated results is returned. *)
Lemma fetch_results_timeout
    (E : env) (job_id : value) (w : world)
    (pre rest : list (Q * http)) (elapsed : Q) (response : http)
    (offset : Z) (acc : list value) :
  polls w = pre ++ (elapsed, response) :: rest →
  keeps_polling E 0 [] pre offset acc →
  Qle_bool elapsed DiscoveryModule.max_wait_time = false →
  ∃ w', DiscoveryModule._fetch_results E job_id w
        = (w', Some (Raise (Exn Exception "Job timeout after 600 seconds")))
        ∧ polled_from w w'.
Proof.
  intros Hpolls Hpre Hel.
  unfold DiscoveryModule._fetch_results. rewrite Hpolls.
  destruct (fetch_loop_keeps_polling E job_id pre 0 [] offset acc Hpre
              ((elapsed, response) :: rest) w)
    as (w1 & Hp & ->); [done|].
  rewrite fetch_loop_late by done.
  eexists. split; [reflexivity|].
  eapply polled_from_trans; [exact Hp|]. apply polled_from_set_polls.
Qed.

End VendorProps.

(** ** The discovery task *)

Section TaskProps.
Import Vocab Tasks.

Lemma bind_run {A B} (m : M A) (k : A → M B) (w w' : world) (a : A) :
  m w = (w', Some (Ok a)) → (m ≫= k) w = k a w'.
Proof. intros H. unfold mbind, M_bind. by rewrite H. Qed.

Lemma bind_raise {A B} (m : M A) (k : A → M B) (w w' : world) (e : exn) :
  m w = (w', Some (Raise e)) → (m ≫= k) w = (w', Some (Raise e)).
Proof. intros H. unfold mbind, M_bind. by rewrite H. Qed.

Lemma update_status_run (E : env) (job_id status : string)
    (kwargs : gmap string value) (w : world) :
  record_ok w job_id →
  update_discovery_job_status E job_id status kwargs w
  = (after_update E job_id status kwargs w, Some (Ok ())).
Proof.
  unfold record_ok, update_discovery_job_status, after_update, updated_record,
    base_record, redis_get, datetime_now, redis_setex, mbind, M_bind.
  simpl.
  destruct (redis w !! job_key job_id) as [[ttl v]|]; simpl;
    [destruct v; simpl; try done|done].
Qed.

Lemma record_ok_after_update (E : env) (job_id status : string)
    (kwargs : gmap string value) (w : world) :
  record_ok (after_update E job_id status kwargs w) job_id.
Proof. unfold record_ok, after_update. simpl. by rewrite lookup_insert_eq. Qed.

Lemma record_ok_redis (w w' : world) (job_id : string) :
  redis w' = redis w → record_ok w job_id → record_ok w' job_id.
Proof. unfold record_ok. by intros ->. Qed.

Lemma updated_record_status (E : env) (w : world) (job_id status : string)
    (kwargs : gmap string value) :
  kwargs !! "status" = None →
  updated_record E w job_id status kwargs !! "status" = Some (VStr status).
Proof. apply merge_fields_status. Qed.

(** The task once the first status write has gone through. *)
Lemma discover_body_run (E : env) (user_filters : value) (job_id : string) (w : world) :
  record_ok w job_id →
  discover_body E user_filters job_id w
  = let w1 := after_update E job_id "discovering" ∅ w in
    match check_credentials E with
    | Raise e => (w1, Some (Raise e))
    | Ok _ =>
        match validate_lookalike (py_or user_filters (VDict ∅)) with
        | Raise e => (w1, Some (Raise e))
        | Ok _ => discover_and_import E (py_or user_filters (VDict ∅)) job_id w1
        end
    end.
Proof.
  intros Hok. unfold discover_body.
  rewrite (bind_run _ _ _ _ _ (update_status_run E job_id "discovering" ∅ w Hok)).
  unfold mbind, M_bind, lift. simpl.
  destruct (check_credentials E); [|done].
  destruct (validate_lookalike _); done.
Qed.

(** The [except] branch: the failure is stored and raised again. *)
Lemma discover_failed_run (E : env) (job_id : string) (e : exn) (w : world) :
  record_ok w job_id →
  discover_failed E job_id e w
  = (after_update E job_id "failed" {[ "error" := VStr (exn_text e) ]} w,
     Some (Raise e)).
Proof.
  intros Hok. unfold discover_failed.
  by rewrite (bind_run _ _ _ _ _ (update_status_run E job_id "failed" _ w Hok)).
Qed.

Lemma discover_raises (E : env) (user_filters : value) (job_id : string)
    (w w1 : world) (e : exn) :
  discover_body E user_filters job_id w = (w1, Some (Raise e)) →
  record_ok w1 job_id →
  discover_instagram_profiles E user_filters job_id w
  = (after_update E job_id "failed" {[ "error" := VStr (exn_text e) ]} w1,
     Some (Raise e)).
Proof.
  intros Hbody Hok. unfold discover_instagram_profiles, try_except.
  rewrite Hbody. by apply discover_failed_run.
Qed.

Lemma failed_record (E : env) (job_id : string) (e : exn) (w : world) :
  let rec := updated_record E w job_id "failed" {[ "error" := VStr (exn_text e) ]} in
  rec !! "status" = Some (VStr "failed")
  ∧ rec !! "error" = Some (VStr (exn_text e)).
Proof.
  split.
  - apply merge_fields_status. by apply lookup_singleton_ne.
  - apply merge_fields_supplied. by apply lookup_singleton_eq.
Qed.

(** *** Lookalike validation *)

Lemma truthy_dict_lookup (d : gmap string value) (k : string) (v : value) :
  d !! k = Some v → truthy (VDict d) = true.
Proof.
  intros Hk. simpl. destruct (size d) eqn:Hs; [|done].
  apply map_size_empty_inv in Hs. subst. by rewrite lookup_empty in Hk.
Qed.

Lemma validate_lookalike_type_without_handle (d : gmap string value) :
  truthy (default VNone (d !! "lookalike_type")) = true →
  d !! "lookalike_username" = None
    ∨ (∃ s, d !! "lookalike_username" = Some (VStr s) ∧ str_strip s = "") →
  ∃ text, validate_lookalike (py_or (VDict d) (VDict ∅))
          = Raise (Exn ValueError text).
Proof.
  intros Htype Hhandle.
  assert (Hd : truthy (VDict d) = true).
  { destruct (d !! "lookalike_type") as [v|] eqn:Hk; [|done].
    by eapply truthy_dict_lookup. }
  unfold py_or. rewrite Hd. unfold validate_lookalike. simpl get.
  assert (Hs : strip (default (VStr "") (d !! "lookalike_username")) = Ok "").
  { destruct Hhandle as [-> | (s & -> & Hs)]; simpl; [done|by rewrite Hs]. }
  simpl. rewrite Hs. simpl. rewrite Htype. simpl.
  destruct (negb _); eauto.
Qed.

End TaskProps.

(** ** Lookalike validation in the task *)

Section LookalikeProps.
Import Vocab Tasks.

Lemma validate_lookalike_handle_without_type (d : gmap string value) (s : string) :
  d !! "lookalike_type" = None →
  d !! "lookalike_username" = Some (VStr s) →
  validate_lookalike (py_or (VDict d) (VDict ∅)) = Ok ().
Proof.
  intros Htype Hhandle.
  unfold py_or. rewrite (truthy_dict_lookup d _ _ Hhandle).
  unfold validate_lookalike. simpl. rewrite Htype, Hhandle. reflexivity.
Qed.

Lemma copy_if_truthy_lookup (user_filters : value) (k k' : string)
    (parameters parameters' : gmap string value) :
  DiscoveryModule.copy_if_truthy user_filters k parameters = Ok parameters' →
  k ≠ k' → parameters' !! k' = parameters !! k'.
Proof.
  unfold DiscoveryModule.copy_if_truthy. intros H Hne.
  destruct (get user_filters k VNone) as [v|]; simpl in H; [|done].
  destruct (truthy v); simplify_eq; [|done].
  by rewrite lookup_insert_ne.
Qed.

(** Without a lookalike type the request carries no lookalike parameter. *)
Lemma build_parameters_drops_handle (platform : string) (d parameters : gmap string value)
    (s : string) :
  d !! "lookalike_type" = None →
  d !! "lookalike_username" = Some (VStr s) →
  DiscoveryModule.build_parameters platform (py_or (VDict d) (VDict ∅)) = Ok parameters →
  parameters !! "creator_lookalikes" = None
  ∧ parameters !! "audience_lookalikes" = None.
Proof.
  intros Htype Hhandle.
  assert (Hpy : py_or (VDict d) (VDict ∅) = VDict d).
  { unfold py_or. by rewrite (truthy_dict_lookup d _ _ Hhandle). }
  unfold DiscoveryModule.build_parameters.
  destruct (DiscoveryModule.PLATFORM_CONFIGS !! platform) as [cfg|]; [|done].
  rewrite !Hpy. simpl get. cbn [mbind result_bind].
  destruct (DiscoveryModule.min_4000 _) as [mx|]; cbn [mbind result_bind]; [|done].
  destruct (get (default (VDict ∅) (d !! "follower_count")) "min" _) as [lo|];
    cbn [mbind result_bind]; [|done].
  destruct (get (default (VDict ∅) (d !! "follower_count")) "max" _) as [hi|];
    cbn [mbind result_bind]; [|done].
  rewrite Htype, Hhandle. cbn [default strip mbind result_bind eq_str andb].
  destruct (DiscoveryModule.copy_if_truthy (VDict d) "creator_interests" _)
    as [p1|] eqn:H1; cbn [mbind result_bind]; [|done].
  intros H2.
  rewrite !(copy_if_truthy_lookup _ _ _ _ _ H2) by done.
  rewrite !(copy_if_truthy_lookup _ _ _ _ _ H1) by done.
  destruct (String.eqb platform "youtube");
    rewrite !lookup_insert_ne by done; split; reflexivity.
Qed.

(** C4 as amended.  When the lookalike type is set and the handle is
    missing or blank, the task raises a [ValueError] after its first status
    write and before anything is sent to the vendor: the only effects are
    the two status writes, and the job record ends as failed with the error
    text.  A handle given without a type is not an error: validation passes
    and the request parameters carry no lookalike. *)
Theorem lookalike_validation (E : env) (d : gmap string value) (job_id : string)
    (w : world) :
  record_ok w job_id →
  (truthy (default VNone (d !! "lookalike_type")) = true →
   d !! "lookalike_username" = None
     ∨ (∃ s, d !! "lookalike_username" = Some (VStr s) ∧ str_strip s = "") →
   ∃ e w' r1 r2,
     discover_instagram_profiles E (VDict d) job_id w = (w', Some (Raise e))
     ∧ exn_cls e = ValueError
     ∧ trace w' = trace w ++ [RedisSetex (job_key job_id) 86400 (VDict r1);
                              RedisSetex (job_key job_id) 86400 (VDict r2)]
     ∧ r1 !! "status" = Some (VStr "discovering")
     ∧ r2 !! "status" = Some (VStr "failed")
     ∧ r2 !! "error" = Some (VStr (exn_text e))
     ∧ redis w' !! job_key job_id = Some (86400, VDict r2)
     ∧ vendor_posts w' = vendor_posts w
     ∧ polls w' = polls w
     ∧ hubspot_posts w' = hubspot_posts w)
  ∧ (∀ s, d !! "lookalike_type" = None →
          d !! "lookalike_username" = Some (VStr s) →
          validate_lookalike (py_or (VDict d) (VDict ∅)) = Ok ()
          ∧ ∀ platform parameters,
              DiscoveryModule.build_parameters platform (py_or (VDict d) (VDict ∅))
              = Ok parameters →
              parameters !! "creator_lookalikes" = None
              ∧ parameters !! "audience_lookalikes" = None).
Proof.
  intros Hok. split.
  - intros Htype Hhandle.
    destruct (validate_lookalike_type_without_handle d Htype Hhandle) as [text Hv].
    set (w1 := after_update E job_id "discovering" ∅ w).
    assert (Hbody : ∃ e, discover_body E (VDict d) job_id w = (w1, Some (Raise e))
                         ∧ exn_cls e = ValueError).
    { rewrite discover_body_run by done. fold w1. cbv zeta.
      unfold check_credentials.
      destruct (env_unset E "INSIGHTIQ_CLIENT_ID" || env_unset E "INSIGHTIQ_SECRET").
      - eexists. split; reflexivity.
      - rewrite Hv. eexists. split; reflexivity. }
    destruct Hbody as (e & Hbody & Hcls).
    exists e. eexists. eexists. eexists.
    split.
    { apply (discover_raises E (VDict d) job_id w w1 e Hbody).
      apply record_ok_after_update. }
    split; [done|].
    split; [simpl; rewrite <- app_assoc; reflexivity|].
    split; [by apply updated_record_status|].
    destruct (failed_record E job_id e w1) as [Hs He].
    split; [exact Hs|]. split; [exact He|].
    split; [simpl; by rewrite lookup_insert_eq|].
    done.
  - intros s Htype Hhandle. split.
    + by eapply validate_lookalike_handle_without_type.
    + intros platform parameters Hb.
      by eapply build_parameters_drops_handle.
Qed.

Lemma lookalike_validation_witness :
  let w := Samples.sample_world [] in
  record_ok w "job-1"
  ∧ ∃ e w',
      discover_instagram_profiles Samples.sample_env
        (VDict Samples.type_without_handle) "job-1" w = (w', Some (Raise e))
      ∧ exn_cls e = ValueError
      ∧ vendor_posts w' = vendor_posts w.
Proof.
  intros w.
  assert (Hok : record_ok w "job-1") by (vm_compute; exact I).
  split; [exact Hok|].
  destruct (lookalike_validation Samples.sample_env Samples.type_without_handle
              "job-1" w Hok) as [H _].
  destruct H as (e & w' & r1 & r2 & Hrun & Hcls & _ & _ & _ & _ & _ & Hv & _).
  - reflexivity.
  - right. exists "  ". split; reflexivity.
  - exists e, w'. split; [exact Hrun|]. split; [exact Hcls|exact Hv].
Defined.

(** C4 as stated fails for a handle without a type: the task completes,
    the search has been posted to the vendor, and the posted parameters
    carry no lookalike. *)
Lemma handle_without_type_is_dropped :
  let run := discover_instagram_profiles Samples.sample_env
               (VDict Samples.handle_without_type) "job-1"
               (Samples.sample_world Samples.one_page_script) in
  Samples.handle_without_type !! "lookalike_username" = Some (VStr "natgeo")
  ∧ Samples.handle_without_type !! "lookalike_type" = None
  ∧ (∃ summary, run.2 = Some (Ok summary))
  ∧ vendor_posts run.1 = 1%nat
  ∧ ∃ parameters,
      trace run.1 !! 1%nat = Some (VendorPost parameters)
      ∧ parameters !! "creator_lookalikes" = None
      ∧ parameters !! "audience_lookalikes" = None.
Proof.
  cbv zeta.
  split; [reflexivity|]. split; [reflexivity|].
  split; [eexists; vm_compute; reflexivity|].
  split; [vm_compute; reflexivity|].
  eexists. split; [vm_compute; reflexivity|].
  split; vm_compute; reflexivity.
Qed.

End LookalikeProps.

(** ** Timeout of the polling loop, seen from the task *)

Section TimeoutProps.
Import Vocab Tasks.

Lemma start_job_run (E : env) (parameters : gmap string value) (w : world)
    (r : result value) :
  wrap_request_exception "Failed to connect to InsightIQ API: "
    (DiscoveryModule.start_job_response (vendor_post E (vendor_posts w))) = r →
  DiscoveryModule._start_job E parameters w
  = (World (redis w) (trace w ++ [VendorPost parameters]) (clock_reads w)
           (S (vendor_posts w)) (hubspot_posts w) (polls w), Some r).
Proof.
  intros <-. unfold DiscoveryModule._start_job, DiscoveryModule.post_search_export,
    lift, mbind, M_bind. reflexivity.
Qed.

(** The search raises the timeout once the job has been accepted and the
    loop has run into the deadline. *)
Lemma search_profiles_timeout (E : env) (user_filters : value) (w : world)
    (parameters : gmap string value) (vendor_job : value)
    (pre rest : list (Q * http)) (elapsed : Q) (response : http)
    (offset : Z) (acc : list value) :
  DiscoveryModule.build_parameters "instagram" user_filters = Ok parameters →
  wrap_request_exception "Failed to connect to InsightIQ API: "
    (DiscoveryModule.start_job_response (vendor_post E (vendor_posts w)))
  = Ok vendor_job →
  polls w = pre ++ (elapsed, response) :: rest →
  keeps_polling E 0 [] pre offset acc →
  Qle_bool elapsed DiscoveryModule.max_wait_time = false →
  ∃ w' evs,
    DiscoveryModule.search_profiles E "instagram" user_filters w
    = (w', Some (Raise timeout_error))
    ∧ redis w' = redis w ∧ hubspot_posts w' = hubspot_posts w
    ∧ trace w' = trace w ++ [VendorPost parameters] ++ evs
    ∧ Forall poll_event evs.
Proof.
  intros Hbuild Hstart Hpolls Hpre Hel.
  unfold DiscoveryModule.search_profiles.
  rewrite (bind_run _ _ w w parameters) by (unfold lift; by rewrite Hbuild).
  rewrite (bind_run _ _ _ _ _ (start_job_run E parameters w _ Hstart)).
  set (w2 := World _ _ _ _ _ _).
  destruct (fetch_results_timeout E vendor_job w2 pre rest elapsed response
              offset acc Hpolls Hpre Hel)
    as (w3 & Hrun & Hr & _ & _ & Hh & evs & Ht & Hevs).
  exists w3, evs.
  split; [by apply bind_raise|].
  split; [exact Hr|]. split; [exact Hh|].
  split; [rewrite Ht; simpl; by rewrite <- app_assoc|exact Hevs].
Qed.

(** C3.  When the elapsed time read at the top of a loop iteration exceeds
    600 seconds, [_fetch_results] raises the timeout whatever stretch of
    polling (waits and fetched pages) came before, and returns none of the
    results accumulated; the task then stores status failed with the
    timeout text and posts nothing to the CRM. *)
Theorem timeout_fails_job (E : env) (user_filters : value) (job_id : string)
    (w : world) (parameters : gmap string value) (vendor_job : value)
    (pre rest : list (Q * http)) (elapsed : Q) (response : http)
    (offset : Z) (acc : list value) :
  record_ok w job_id →
  check_credentials E = Ok () →
  validate_lookalike (py_or user_filters (VDict ∅)) = Ok () →
  DiscoveryModule.build_parameters "instagram" (py_or user_filters (VDict ∅))
  = Ok parameters →
  wrap_request_exception "Failed to connect to InsightIQ API: "
    (DiscoveryModule.start_job_response (vendor_post E (vendor_posts w)))
  = Ok vendor_job →
  polls w = pre ++ (elapsed, response) :: rest →
  keeps_polling E 0 [] pre offset acc →
  Qle_bool elapsed DiscoveryModule.max_wait_time = false →
  (∀ w0, polls w0 = polls w →
     ∃ w1, DiscoveryModule._fetch_results E vendor_job w0
           = (w1, Some (Raise timeout_error)))
  ∧ ∃ w' r1 r2 evs,
      discover_instagram_profiles E user_filters job_id w
      = (w', Some (Raise timeout_error))
      ∧ redis w' !! job_key job_id = Some (86400, VDict r2)
      ∧ r2 !! "status" = Some (VStr "failed")
      ∧ r2 !! "error" = Some (VStr "Job timeout after 600 seconds")
      ∧ hubspot_posts w' = hubspot_posts w
      ∧ trace w' = trace w ++ [RedisSetex (job_key job_id) 86400 (VDict r1);
                               VendorPost parameters]
                           ++ evs ++ [RedisSetex (job_key job_id) 86400 (VDict r2)]
      ∧ Forall poll_event evs.
Proof.
  intros Hok Hcred Hval Hbuild Hstart Hpolls Hpre Hel. split.
  - intros w0 Hw0.
    destruct (fetch_results_timeout E vendor_job w0 pre rest elapsed response
                offset acc) as (w1 & Hrun & _); [congruence|done|done|].
    by exists w1.
  - set (w1 := after_update E job_id "discovering" ∅ w).
    destruct (search_profiles_timeout E (py_or user_filters (VDict ∅)) w1
                parameters vendor_job pre rest elapsed response offset acc)
      as (w3 & evs & Hrun & Hr & Hh & Ht & Hevs); [done..|].
    assert (Hbody : discover_body E user_filters job_id w
                    = (w3, Some (Raise timeout_error))).
    { rewrite discover_body_run by done. fold w1. cbv zeta.
      rewrite Hcred, Hval. unfold discover_and_import.
      by apply bind_raise. }
    assert (Hok3 : record_ok w3 job_id).
    { apply (record_ok_redis w1); [done|]. apply record_ok_after_update. }
    destruct (failed_record E job_id timeout_error w3) as [Hs He].
    eexists. eexists. eexists. exists evs.
    split; [exact (discover_raises E user_filters job_id w w3 _ Hbody Hok3)|].
    split; [simpl; by rewrite lookup_insert_eq|].
    split; [exact Hs|]. split; [exact He|].
    split; [simpl; exact Hh|].
    split; [|exact Hevs].
    simpl. rewrite Ht. simpl. rewrite <- !app_assoc. reflexivity.
Qed.

Lemma timeout_fails_job_witness :
  let w := Samples.sample_world Samples.late_script in
  ∃ w', discover_instagram_profiles Samples.sample_env VNone "job-1" w
        = (w', Some (Raise timeout_error))
        ∧ hubspot_posts w' = hubspot_posts w.
Proof.
  intros w.
  destruct (DiscoveryModule.build_parameters "instagram" (py_or VNone (VDict ∅)))
    as [parameters|e] eqn:Hb; [|vm_compute in Hb; discriminate].
  destruct (timeout_fails_job Samples.sample_env VNone "job-1" w parameters
              (VStr "export-1")
              [(0%Q, Samples.in_progress); (60%Q, Samples.in_progress)] []
              660%Q Samples.in_progress 0 [])
    as [_ (w' & r1 & r2 & evs & Hrun & _ & _ & _ & Hh & _)].
  - vm_compute. exact I.
  - reflexivity.
  - reflexivity.
  - exact Hb.
  - reflexivity.
  - reflexivity.
  - do 2 (apply keeps_polling_in_progress; [reflexivity|]). constructor.
  - reflexivity.
  - exists w'. split; [exact Hrun|exact Hh].
Defined.

End TimeoutProps.

(** ** Every step of the task only appends to the trace *)

Section TraceProps.
Import Vocab Tasks.

Lemma appends_ret {A} (a : A) : appends (mret a : M A).
Proof. intros w. exists []. simpl. by rewrite app_nil_r. Qed.

Lemma appends_raise {A} (e : exn) : appends (raise e : M A).
Proof. intros w. exists []. simpl. by rewrite app_nil_r. Qed.

Lemma appends_lift {A} (r : result A) : appends (lift r).
Proof. intros w. exists []. simpl. by rewrite app_nil_r. Qed.

Lemma appends_bind {A B} (m : M A) (k : A → M B) :
  appends m → (∀ a, appends (k a)) → appends (m ≫= k).
Proof.
  intros Hm Hk w. unfold mbind, M_bind.
  destruct (Hm w) as [evs H].
  destruct (m w) as [w' [[a|e]|]]; simpl in *; try by exists evs.
  destruct (Hk a w') as [evs' H'].
  exists (evs ++ evs'). by rewrite H', H, app_assoc.
Qed.

Lemma appends_try_except {A} (body : M A) (handler : exn → M A) :
  appends body → (∀ e, appends (handler e)) → appends (try_except body handler).
Proof.
  intros Hb Hh w. unfold try_except.
  destruct (Hb w) as [evs H].
  destruct (body w) as [w' [[a|e]|]]; simpl in *; try by exists evs.
  destruct (Hh e w') as [evs' H'].
  exists (evs ++ evs'). by rewrite H', H, app_assoc.
Qed.

Lemma appends_emit (ev : event) : appends (emit ev).
Proof. intros w. by exists [ev]. Qed.

Lemma appends_datetime_now (E : env) : appends (datetime_now E).
Proof. intros w. exists []. simpl. by rewrite app_nil_r. Qed.

Lemma appends_redis_get (key : string) : appends (redis_get key).
Proof. intros w. exists []. simpl. by rewrite app_nil_r. Qed.

Lemma appends_redis_setex (key : string) (ttl : Z) (payload : value) :
  appends (redis_setex key ttl payload).
Proof. intros w. by eexists [_]. Qed.

Lemma appends_update (E : env) (job_id status : string) (kwargs : gmap string value) :
  appends (update_discovery_job_status E job_id status kwargs).
Proof.
  unfold update_discovery_job_status.
  apply appends_bind; [apply appends_redis_get|]. intros stored.
  destruct (match stored with Some v => v | None => _ end);
    try apply appends_raise.
  apply appends_bind; [apply appends_datetime_now|].
  intros now. apply appends_redis_setex.
Qed.

Lemma appends_start_job (E : env) (parameters : gmap string value) :
  appends (DiscoveryModule._start_job E parameters).
Proof.
  unfold DiscoveryModule._start_job.
  apply appends_bind; [|intros; apply appends_lift].
  intros w. by eexists [_].
Qed.

Lemma appends_fetch_loop (E : env) (job_id : value) (script : list (Q * http)) :
  ∀ offset acc w,
    ∃ evs, trace (DiscoveryModule.fetch_loop E job_id script offset acc w).1
           = trace w ++ evs.
Proof.
  induction script as [|[elapsed response] rest IH]; intros offset acc w.
  - exists []. simpl. by rewrite app_nil_r.
  - destruct (Qle_bool elapsed DiscoveryModule.max_wait_time) eqn:Hel.
    + rewrite fetch_loop_within by done. cbv zeta.
      destruct (wrap_request_exception _ _) as [[|all|all]|e].
      * destruct (IH offset acc
                    (DiscoveryModule.log_event (Sleep 60)
                       (DiscoveryModule.log_event
                          (VendorGet job_id offset DiscoveryModule.limit)
                          (DiscoveryModule.set_polls rest w)))) as [evs ->].
        simpl. eexists. by rewrite <- !app_assoc.
      * destruct (IH (offset + DiscoveryModule.limit) all
                    (DiscoveryModule.log_event
                       (VendorGet job_id offset DiscoveryModule.limit)
                       (DiscoveryModule.set_polls rest w))) as [evs ->].
        simpl. eexists. by rewrite <- !app_assoc.
      * by eexists [_].
      * by eexists [_].
    + rewrite fetch_loop_late by done. exists []. simpl. by rewrite app_nil_r.
Qed.

Lemma appends_fetch_results (E : env) (job_id : value) :
  appends (DiscoveryModule._fetch_results E job_id).
Proof. intros w. apply appends_fetch_loop. Qed.

Lemma appends_search_profiles (E : env) (platform : string) (user_filters : value) :
  appends (DiscoveryModule.search_profiles E platform user_filters).
Proof.
  unfold DiscoveryModule.search_profiles.
  apply appends_bind; [apply appends_lift|]. intros parameters.
  apply appends_bind; [apply appends_start_job|]. intros job.
  apply appends_bind; [apply appends_fetch_results|]. intros raw.
  apply appends_ret.
Qed.

End TraceProps.
